(** * A model of the sales dashboard script [streamlit_app.py]

    The script generates a table of daily sales, narrows it with a date
    range and a region selection, and derives three metrics and two grouped
    tables.  The pandas and numpy operations the script calls are modelled
    here next to the script itself:

    - a [Timestamp] is the integer number of nanoseconds since
      1970-01-01T00:00, as in a [datetime64[ns]] column;
    - integers are mathematical integers, the way Python's are;
      [pd.date_range] refuses a range that leaves the 64-bit count of
      nanoseconds, as pandas does, and [generated_within_int64] shows that
      the sales of the frames it returns, and their sums, stay inside the
      64-bit range of numpy's integers, so that no sum of the script wraps;
    - a Python exception is one of the classes that the calls of the script
      can raise: [ValueError], [OverflowError] and pandas'
      [OutOfBoundsDatetime];
    - a [DataFrame] is the list of its rows in row order, every row carrying
      its index label;
    - a float is either [NaN] or an exact rational: the rounding of binary
      floating point is left out;
    - a Python call that can raise returns a [result];
    - numpy's global random state is threaded explicitly, behind the
      interface [BitGenerator], and the cache of [st.cache_data] is a finite
      map in the same state;
    - the widgets of the sidebar are the inputs of a run: the script is
      modelled on the values [start_date], [end_date] and
      [selected_regions] they returned. *)

From Stdlib Require Import ZArith QArith Lia Ascii String.
From Stdlib Require Import DecimalString DecimalPos DecimalZ.
From stdpp Require Import base list sorting gmap strings.

Local Open Scope Z_scope.

(** ** Python: exceptions *)

Inductive exception : Type :=
  | ValueError
  | OverflowError
  | OutOfBoundsDatetime.

(** [isinstance(e, ValueError)]: pandas declares [OutOfBoundsDatetime] as a
    subclass of [ValueError]; [OverflowError] is an [ArithmeticError]. *)
Definition isinstance_ValueError (e : exception) : bool :=
  match e with
  | ValueError | OutOfBoundsDatetime => true
  | OverflowError => false
  end.

Inductive result (A : Type) : Type :=
  | Ok (a : A)
  | Raise (e : exception).
Arguments Ok {A} a.
Arguments Raise {A} e.

#[global] Instance result_ret : MRet result := λ A a, Ok a.
#[global] Instance result_bind : MBind result := λ A B f m,
  match m with
  | Ok a => f a
  | Raise e => Raise e
  end.


(** ** numpy.random *)

(** The generator behind [np.random]: one primitive that draws an integer
    below a positive bound and steps the state. *)
Class BitGenerator := {
  rng_state : Type;
  next_below : Z → rng_state → Z * rng_state;
  next_below_range : ∀ n s, 0 < n → 0 ≤ (next_below n s).1 < n
}.

Module np.
Section random.
Context `{G : BitGenerator}.

Fixpoint draws (low span : Z) (size : nat) (s : rng_state)
    : list Z * rng_state :=
  match size with
  | O => ([], s)
  | S size' =>
      let '(x, s1) := next_below span s in
      let '(xs, s2) := draws low span size' s1 in
      ((low + x) :: xs, s2)
  end.

(** [np.random.randint(low, high, size=size)]: [size] integers of the
    half-open interval from [low] to [high]; a negative size and an empty
    interval are rejected. *)
Definition randint (low high size : Z) (s : rng_state)
    : result (list Z * rng_state) :=
  if size <? 0 then Raise ValueError
  else if high <=? low then Raise ValueError
  else Ok (draws low (high - low) (Z.to_nat size) s).

(** [np.random.choice(a, size=size)]: positions drawn with
    [randint(0, len(a), size)], then looked up in [a]. *)
Definition choice (a : list string) (size : Z) (s : rng_state)
    : result (list string * rng_state) :=
  match a with
  | [] => if size =? 0 then Ok ([], s) else Raise ValueError
  | a0 :: _ =>
      match randint 0 (Z.of_nat (length a)) size s with
      | Ok (idx, s') =>
          Ok ((λ i : Z, default a0 (a !! Z.to_nat i)) <$> idx, s')
      | Raise e => Raise e
      end
  end.
End random.
End np.

(** ** pandas *)

Abbreviation Timestamp := Z.

Module pd.

Definition ns_per_day : Z := 86400 * 1000000000.

(** Days from 1970-01-01 to the civil date [y]-[m]-[d] (proleptic
    Gregorian calendar). *)
Definition days_from_civil (y m d : Z) : Z :=
  let y' := if m <=? 2 then y - 1 else y in
  let era := y' / 400 in
  let yoe := y' - era * 400 in
  let doy := (153 * (if 2 <? m then m - 3 else m + 9) + 2) / 5 + d - 1 in
  let doe := yoe * 365 + yoe / 4 - yoe / 100 + doy in
  era * 146097 + doe - 719468.

(** Midnight at the start of day number [n]. *)
Definition Timestamp_of_day (n : Z) : Timestamp := n * ns_per_day.

(** [pd.Timestamp("y-m-d")]. *)
Definition Timestamp_ymd (y m d : Z) : Timestamp :=
  Timestamp_of_day (days_from_civil y m d).

(** The calendar date a timestamp falls on, as a day number, and whether
    the timestamp is the midnight that starts it. *)
Definition calendar_date (t : Timestamp) : Z := t / ns_per_day.
Definition normalized (t : Timestamp) : Prop := t mod ns_per_day = 0.

(** The largest timestamp of a [datetime64[ns]] column, and the largest
    unsigned 64-bit integer. *)
Definition int64_max : Z := 2 ^ 63 - 1.
Definition uint64_max : Z := 2 ^ 64 - 1.

(** [pd.date_range(start=start, periods=periods, freq="D")], for a start
    that is not before 1970.  The end of the range is computed in 64-bit
    arithmetic: the number of periods is first converted with [np.uint64],
    which in numpy 2 raises [OverflowError] on a negative number and on one
    beyond 64 bits; a range whose last timestamp does not fit the 64-bit
    count of nanoseconds is then refused with [OutOfBoundsDatetime]. *)
Definition date_range (start : Timestamp) (periods : Z)
    : result (list Timestamp) :=
  if (periods <? 0) || (uint64_max <? periods) then Raise OverflowError
  else if (0 <? periods)
          && (int64_max <? start + (periods - 1) * ns_per_day)
  then Raise OutOfBoundsDatetime
  else Ok ((λ i : nat, start + Z.of_nat i * ns_per_day)
             <$> seq 0 (Z.to_nat periods)).

(** A row of a frame with the columns Date, Sales and Region. *)
Record Row := {
  Index : Z;
  Date : Timestamp;
  Sales : Z;
  Region : string
}.

Abbreviation DataFrame := (list Row).

Fixpoint zip_rows (i : Z) (dates : list Timestamp) (sales : list Z)
    (regions : list string) : DataFrame :=
  match dates, sales, regions with
  | d :: dates', v :: sales', r :: regions' =>
      {| Index := i; Date := d; Sales := v; Region := r |}
        :: zip_rows (i + 1) dates' sales' regions'
  | _, _, _ => []
  end.

(** [pd.DataFrame({'Date': dates, 'Sales': sales, 'Region': regions})]:
    the columns must have one length; the index is 0, 1, 2, ... *)
Definition DataFrame_of_columns (dates : list Timestamp) (sales : list Z)
    (regions : list string) : result DataFrame :=
  if bool_decide (length dates = length sales
                  ∧ length sales = length regions)
  then Ok (zip_rows 0 dates sales regions)
  else Raise ValueError.

(** A column [df['Date']], [df['Sales']], [df['Region']] is the list of
    its values in row order: [Date <$> df] and so on.  Every column the
    script combines comes from one frame, so the alignment on the index
    that pandas performs is the positional one. *)

(** [s >= t] and [s <= t] on a column of timestamps. *)
Definition series_ge (s : list Timestamp) (t : Timestamp) : list bool :=
  (λ x, bool_decide (t ≤ x)) <$> s.
Definition series_le (s : list Timestamp) (t : Timestamp) : list bool :=
  (λ x, bool_decide (x ≤ t)) <$> s.

(** [s.isin(values)]. *)
Definition series_isin (s : list string) (values : list string)
    : list bool :=
  (λ x, bool_decide (x ∈ values)) <$> s.

(** [m1 & m2] on boolean columns. *)
Definition mask_and (m1 m2 : list bool) : list bool := zip_with andb m1 m2.

Fixpoint take_where (df : DataFrame) (mask : list bool) : DataFrame :=
  match df, mask with
  | r :: df', b :: mask' =>
      if b then r :: take_where df' mask' else take_where df' mask'
  | _, _ => []
  end.

(** [df[mask]]: a new frame with the rows at which the mask holds; a mask
    of another length is rejected. *)
Definition getitem_mask (df : DataFrame) (mask : list bool)
    : result DataFrame :=
  if bool_decide (length mask = length df)
  then Ok (take_where df mask)
  else Raise ValueError.

(** [s.sum()]. *)
Definition series_sum (s : list Z) : Z := foldr Z.add 0 s.

Inductive float : Type :=
  | NaN
  | Float (q : Q).

(** [s.mean()]: the sum over the count, and [NaN] on an empty column. *)
Definition series_mean (s : list Z) : float :=
  match s with
  | [] => NaN
  | _ :: _ =>
      Float (inject_Z (series_sum s) / inject_Z (Z.of_nat (length s)))
  end.

(** The order of Python strings, character by character. *)
Definition str_le (a b : string) : Prop := String.leb a b = true.

#[global] Instance str_le_dec : RelDecision str_le.
Proof. intros a b. unfold str_le. apply _. Defined.

Section groupby.
Context {K : Type} `{EqDecision K}.
Context (le : relation K) `{∀ x y, Decision (le x y)}.

(** The distinct values of a column in the order of first appearance
    ([s.unique()]). *)
Fixpoint unique (l : list K) : list K :=
  match l with
  | [] => []
  | x :: l' => x :: filter (λ y, y ≠ x) (unique l')
  end.

(** The group keys of [df.groupby(key)]: the distinct keys, sorted. *)
Definition group_keys (key : Row → K) (df : DataFrame) : list K :=
  merge_sort le (unique (key <$> df)).

(** [df.groupby(key)['Sales'].sum()]: one entry per group key, in the
    order of the keys, with the sum of the Sales of the group's rows. *)
Definition groupby_sum (key : Row → K) (df : DataFrame) : list (K * Z) :=
  (λ k, (k, series_sum (Sales <$> filter (λ r, key r = k) df)))
    <$> group_keys key df.
End groupby.

End pd.

Import pd.

(** ** The script *)

Definition region_names : list string :=
  ["North"; "South"; "East"; "West"]%string.

Definition generate_sales_data `{G : BitGenerator} (num_days : Z)
    (s : rng_state)
    : result (DataFrame * rng_state) :=
  dates ← date_range (Timestamp_ymd 2024 1 1) num_days;
  '(sales, s1) ← np.randint 100 1000 num_days s;
  '(regions, s2) ← np.choice region_names num_days s1;
  data ← DataFrame_of_columns dates sales regions;
  Ok (data, s2).

(** The decorator [st.cache_data]: results are kept per argument, and a call
    with an argument seen before returns the kept result without running
    the function. *)
Record World `{BitGenerator} := {
  np_random : rng_state;
  st_cache : gmap Z DataFrame
}.

Definition cache_data `{BitGenerator}
    (f : Z → rng_state → result (DataFrame * rng_state))
    (arg : Z) (w : World) : result (DataFrame * World) :=
  match st_cache w !! arg with
  | Some data => Ok (data, w)
  | None =>
      match f arg (np_random w) with
      | Ok (data, s') =>
          Ok (data, {| np_random := s';
                       st_cache := <[arg := data]> (st_cache w) |})
      | Raise e => Raise e
      end
  end.

(** [filtered_df = df[(df['Date'] >= start_date) & (df['Date'] <= end_date)
                      & (df['Region'].isin(selected_regions))]] *)
Definition filtered_df (df : DataFrame) (start_date end_date : Timestamp)
    (selected_regions : list string) : result DataFrame :=
  getitem_mask df
    (mask_and
       (mask_and (series_ge (Date <$> df) start_date)
                 (series_le (Date <$> df) end_date))
       (series_isin (Region <$> df) selected_regions)).

(** [filtered_df['Sales'].sum()] *)
Definition total_sales (filtered_df : DataFrame) : Z :=
  series_sum (Sales <$> filtered_df).

(** [filtered_df.groupby('Date')['Sales'].sum().mean()] *)
Definition avg_daily_sales (filtered_df : DataFrame) : float :=
  series_mean ((groupby_sum Z.le Date filtered_df).*2).

(** [len(filtered_df)] *)
Definition num_transactions (filtered_df : DataFrame) : Z :=
  Z.of_nat (length filtered_df).

(** [filtered_df.groupby('Date')['Sales'].sum().reset_index()]: the rows
    (Date, Sales) of the grouped frame, in order. *)
Definition daily_sales_trend (filtered_df : DataFrame)
    : list (Timestamp * Z) :=
  groupby_sum Z.le Date filtered_df.

(** [filtered_df.groupby('Region')['Sales'].sum().reset_index()]: the rows
    (Region, Sales) of the grouped frame, in order. *)
Definition sales_by_region (filtered_df : DataFrame) : list (string * Z) :=
  groupby_sum str_le Region filtered_df.

(** The module-level names of the script after one run. *)
Module Globals.
Record t := {
  df : DataFrame;
  filtered_df : DataFrame;
  total_sales : Z;
  avg_daily_sales : float;
  num_transactions : Z;
  daily_sales_trend : list (Timestamp * Z);
  sales_by_region : list (string * Z)
}.
End Globals.

(** One run of the script below the sidebar, on the frame [df] and the
    values the sidebar widgets returned. *)
Definition rerun (df : DataFrame) (start_date end_date : Timestamp)
    (selected_regions : list string) : result Globals.t :=
  view ← filtered_df df start_date end_date selected_regions;
  Ok {| Globals.df := df;
        Globals.filtered_df := view;
        Globals.total_sales := total_sales view;
        Globals.avg_daily_sales := avg_daily_sales view;
        Globals.num_transactions := num_transactions view;
        Globals.daily_sales_trend := daily_sales_trend view;
        Globals.sales_by_region := sales_by_region view |}.

(** The whole script: [df = generate_sales_data(200)] through the cache,
    then the run on the widgets' values. *)
Definition script `{BitGenerator} (start_date end_date : Timestamp)
    (selected_regions : list string) (w : World)
    : result (Globals.t * World) :=
  match cache_data generate_sales_data 200 w with
  | Ok (df, w') =>
      match rerun df start_date end_date selected_regions with
      | Ok g => Ok (g, w')
      | Raise e => Raise e
      end
  | Raise e => Raise e
  end.

(** The inclusion predicate of the filter as the specification words it:
    the record's date lies between the bounds, both included, and its region
    is one of the selected ones. *)
Definition included (start_date end_date : Timestamp)
    (selected_regions : list string) (r : Row) : Prop :=
  start_date ≤ Date r ≤ end_date ∧ Region r ∈ selected_regions.

#[global] Instance included_dec start_date end_date selected_regions r :
  Decision (included start_date end_date selected_regions r).
Proof. unfold included. apply _. Defined.

(** The calendar dates of the records of a view, one per record. *)
Definition dates_of (view : DataFrame) : list Z :=
  (λ r, calendar_date (Date r)) <$> view.

(** The aggregates as the specification words them.  These definitions
    share nothing with the model of pandas above: the sum of a list of
    integers is a recursion of its own, the distinct dates present in a view
    are a finite set, and the records of a date or of a region are taken
    from the view itself. *)
Fixpoint arithmetic_sum (l : list Z) : Z :=
  match l with
  | [] => 0
  | x :: l' => x + arithmetic_sum l'
  end.

Definition dates_present (view : DataFrame) : gset Z :=
  list_to_set (dates_of view).

Definition sales_on (view : DataFrame) (d : Z) : Z :=
  arithmetic_sum (Sales <$> filter (λ r, calendar_date (Date r) = d) view).

Definition sales_in (view : DataFrame) (region : string) : Z :=
  arithmetic_sum (Sales <$> filter (λ r, Region r = region) view).

(** The arithmetic mean, over the distinct dates present in a view, of the
    sum of the sales of the records of each date. *)
Definition mean_over_dates (view : DataFrame) : Q :=
  inject_Z (arithmetic_sum (sales_on view <$> elements (dates_present view)))
  / inject_Z (Z.of_nat (size (dates_present view))).

(** The Date column holds calendar dates: every timestamp in it is the
    midnight that starts its day. *)
Definition normalized_dates (view : DataFrame) : Prop :=
  Forall (λ r, normalized (Date r)) view.

#[global] Instance normalized_dec t : Decision (normalized t).
Proof. unfold normalized. apply _. Defined.

(** The cache holds nothing but results of the generator. *)
Definition cache_sound `{G : BitGenerator} (w : World) : Prop :=
  ∀ n data, st_cache w !! n = Some data →
    ∃ s s', generate_sales_data n s = Ok (data, s').

(** A state in which nothing is cached yet. *)
Definition fresh_world `{G : BitGenerator} (s : rng_state) : World :=
  {| np_random := s; st_cache := ∅ |}.

(** ** The sidebar *)

(** A Python [datetime]: the integer number of microseconds since
    1970-01-01T00:00. *)
Abbreviation datetime := Z.

(** [t.to_pydatetime()]: the nanoseconds below the microsecond are
    dropped. *)
Definition to_pydatetime (t : Timestamp) : datetime := t / 1000.

(** [pd.to_datetime(d)] on a [datetime]. *)
Definition to_datetime (d : datetime) : Timestamp := d * 1000.

(** [s.min()] and [s.max()] on a column of timestamps; [None] is the [NaT]
    of an empty column. *)
Definition series_min (s : list Timestamp) : option Timestamp :=
  match s with
  | [] => None
  | t :: s' => Some (foldr Z.min t s')
  end.

Definition series_max (s : list Timestamp) : option Timestamp :=
  match s with
  | [] => None
  | t :: s' => Some (foldr Z.max t s')
  end.

(** What the user has done with the two widgets of the sidebar: nothing
    yet, or a setting. *)
Record Widgets := {
  slider_setting : option (datetime * datetime);
  multiselect_setting : option (list string)
}.

Definition untouched : Widgets :=
  {| slider_setting := None; multiselect_setting := None |}.

(** [st.slider(..., value=value)] and [st.multiselect(..., default=default)]
    return the setting of the user, and the initial value while there is
    none. *)
Definition st_slider (value : datetime * datetime) (ui : Widgets)
    : datetime * datetime :=
  default value (slider_setting ui).

Definition st_multiselect (initial : list string) (ui : Widgets)
    : list string :=
  default initial (multiselect_setting ui).

(** [min_date = df['Date'].min().to_pydatetime()] and [max_date]. *)
Definition min_date (df : DataFrame) : option datetime :=
  to_pydatetime <$> series_min (Date <$> df).

Definition max_date (df : DataFrame) : option datetime :=
  to_pydatetime <$> series_max (Date <$> df).

(** [all_regions = df['Region'].unique().tolist()] *)
Definition all_regions (df : DataFrame) : list string :=
  unique (Region <$> df).

(** The sidebar: the slider starts on the whole range from [min_date] to
    [max_date], the multiselect on every region; what they return is
    converted back to timestamps.  [None] stands for a frame without rows,
    where the bounds of the slider would be [NaT]; the script never has
    such a frame. *)
Definition sidebar (df : DataFrame) (ui : Widgets)
    : option (Timestamp * Timestamp * list string) :=
  lo ← min_date df;
  hi ← max_date df;
  let date_range := st_slider (lo, hi) ui in
  let start_date := to_datetime date_range.1 in
  let end_date := to_datetime date_range.2 in
  let selected_regions := st_multiselect (all_regions df) ui in
  Some (start_date, end_date, selected_regions).

(** The sidebar and the run below it. *)
Definition run_on_widgets (df : DataFrame) (ui : Widgets)
    : option (result Globals.t) :=
  '(start_date, end_date, selected_regions) ← sidebar df ui;
  Some (rerun df start_date end_date selected_regions).

(** ** The labels of the metrics *)

(** The digits of a number from the right, a comma after every third one
    that has more digits to its left. *)
Fixpoint group_rev (l : list ascii) : list ascii :=
  match l with
  | [] => []
  | a :: l1 =>
      match l1 with
      | [] => l
      | b :: l2 =>
          match l2 with
          | [] => l
          | c :: l3 =>
              match l3 with
              | [] => l
              | _ :: _ => a :: b :: c :: ","%char :: group_rev l3
              end
          end
      end
  end.

Definition with_commas (digits : string) : string :=
  string_of_list_ascii
    (reverse (group_rev (reverse (list_ascii_of_string digits)))).

(** [format(n, ",")] on a Python [int]: the sign, then the decimal digits
    in groups of three. *)
Definition format_comma (n : Z) : string :=
  match Z.to_int n with
  | Decimal.Pos d => with_commas (NilZero.string_of_uint d)
  | Decimal.Neg d => String "-" (with_commas (NilZero.string_of_uint d))
  end.

(** [f"{num_transactions:,}"] *)
Definition num_transactions_label (filtered_df : DataFrame) : string :=
  format_comma (num_transactions filtered_df).

(** Reading a label back: the commas taken out, the rest parsed as a
    decimal integer. *)
Definition remove_commas (s : string) : string :=
  string_of_list_ascii
    (filter (λ c, c ≠ ","%char) (list_ascii_of_string s)).

Definition parse_int (s : string) : option Z :=
  Z.of_int <$> NilZero.int_of_string s.

(** Two frames to run the script on: five consecutive days of one region,
    and a frame with two records on one day. *)
Definition five_days : DataFrame :=
  [ {| Index := 0; Date := Timestamp_ymd 2024 1 1; Sales := 100;
       Region := "North" |};
    {| Index := 1; Date := Timestamp_ymd 2024 1 2; Sales := 200;
       Region := "North" |};
    {| Index := 2; Date := Timestamp_ymd 2024 1 3; Sales := 300;
       Region := "North" |};
    {| Index := 3; Date := Timestamp_ymd 2024 1 4; Sales := 400;
       Region := "North" |};
    {| Index := 4; Date := Timestamp_ymd 2024 1 5; Sales := 500;
       Region := "North" |} ].

Definition two_on_one_day : DataFrame :=
  [ {| Index := 0; Date := Timestamp_ymd 2024 1 2; Sales := 10;
       Region := "West" |};
    {| Index := 1; Date := Timestamp_ymd 2024 1 1; Sales := 20;
       Region := "East" |};
    {| Index := 2; Date := Timestamp_ymd 2024 1 2; Sales := 30;
       Region := "East" |} ].

(** A small linear congruential generator, to run the script on. *)
Definition lcg_next (n : Z) (s : Z) : Z * Z :=
  let s' := (s * 1103515245 + 12345) mod 2147483648 in
  (s' mod n, s').

#[export] Instance lcg : BitGenerator := {|
  rng_state := Z;
  next_below := lcg_next;
  next_below_range := λ n s Hn, Z.mod_pos_bound _ n Hn
|}.

(** * Properties *)

(** ** The generator *)

Section generator.
Context `{G : BitGenerator}.

Lemma draws_length low span n s : length (np.draws low span n s).1 = n.
Proof.
  revert s. induction n as [|n IH]; intros s; simpl; [done|].
  destruct (next_below span s) as [x s1].
  specialize (IH s1). destruct (np.draws low span n s1) as [xs s2].
  simpl in *. by rewrite IH.
Qed.

Lemma draws_range low span n s :
  0 < span →
  Forall (λ x, low ≤ x < low + span) (np.draws low span n s).1.
Proof.
  intros Hspan. revert s. induction n as [|n IH]; intros s; simpl.
  { constructor. }
  pose proof (next_below_range span s Hspan) as Hx.
  destruct (next_below span s) as [x s1].
  specialize (IH s1). destruct (np.draws low span n s1) as [xs s2].
  simpl in *. constructor; [lia | done].
Qed.

Lemma randint_returns low high size s :
  0 ≤ size → low < high →
  np.randint low high size s
    = Ok (np.draws low (high - low) (Z.to_nat size) s).
Proof.
  intros Hsize Hlow. unfold np.randint.
  destruct (Z.ltb_spec size 0); [lia|].
  destruct (Z.leb_spec high low); [lia|]. done.
Qed.

Lemma randint_negative_size low high size s :
  size < 0 → np.randint low high size s = Raise ValueError.
Proof.
  intros Hsize. unfold np.randint.
  destruct (Z.ltb_spec size 0); [done | lia].
Qed.

Lemma choice_region_names size s :
  0 ≤ size →
  ∃ regions s',
    np.choice region_names size s = Ok (regions, s')
    ∧ length regions = Z.to_nat size
    ∧ Forall (λ r, r ∈ region_names) regions.
Proof.
  intros Hsize. unfold np.choice, region_names at 1.
  rewrite randint_returns by (simpl; lia).
  pose proof (draws_length 0 (Z.of_nat (length region_names) - 0)
                (Z.to_nat size) s) as Hlen.
  pose proof (draws_range 0 (Z.of_nat (length region_names) - 0)
                (Z.to_nat size) s ltac:(simpl; lia)) as Hrange.
  destruct (np.draws _ _ _ s) as [idx s']. simpl in Hlen, Hrange.
  eexists _, _. split; [done|]. split.
  { by rewrite length_fmap. }
  apply Forall_fmap. eapply Forall_impl; [apply Hrange|].
  intros i Hi. simpl in Hi |- *.
  assert (Z.to_nat i < 4)%nat as Hlt by lia.
  clear Hi. destruct (Z.to_nat i) as [|[|[|[|n]]]]; simpl;
    [unfold region_names; repeat constructor..|lia].
Qed.

Lemma zip_rows_length i dates sales regions :
  length dates = length sales → length sales = length regions →
  length (zip_rows i dates sales regions) = length dates.
Proof.
  revert i sales regions.
  induction dates as [|d dates IH]; intros i [|v sales] [|r regions];
    simpl; intros ??; try done.
  f_equal. apply IH; lia.
Qed.

Lemma zip_rows_lookup i dates sales regions (k : nat) (r : Row) :
  zip_rows i dates sales regions !! k = Some r →
  Index r = i + Z.of_nat k
  ∧ dates !! k = Some (Date r)
  ∧ sales !! k = Some (Sales r)
  ∧ regions !! k = Some (Region r).
Proof.
  revert i sales regions k.
  induction dates as [|d dates IH]; intros i [|v sales] [|x regions] k;
    simpl; try done.
  destruct k as [|k]; simpl.
  - intros [= <-]. simpl. repeat split; lia.
  - intros Hk. apply IH in Hk as (-> & ? & ? & ?). repeat split; [lia|done..].
Qed.

Lemma Timestamp_2024_fits (periods : Z) :
  0 < periods →
  Timestamp_ymd 2024 1 1 + (periods - 1) * ns_per_day ≤ int64_max
  ↔ periods ≤ 87029.
Proof.
  change (Timestamp_ymd 2024 1 1) with 1704067200000000000.
  unfold ns_per_day, int64_max. lia.
Qed.

Lemma date_range_returns periods :
  0 ≤ periods ≤ 87029 →
  date_range (Timestamp_ymd 2024 1 1) periods
    = Ok ((λ i : nat, Timestamp_ymd 2024 1 1 + Z.of_nat i * ns_per_day)
            <$> seq 0 (Z.to_nat periods)).
Proof.
  intros Hp. unfold date_range.
  destruct (Z.ltb_spec periods 0); [lia|].
  destruct (Z.ltb_spec uint64_max periods); [unfold uint64_max in *; lia|].
  destruct (Z.ltb_spec 0 periods); [|done].
  destruct (Z.ltb_spec int64_max
              (Timestamp_ymd 2024 1 1 + (periods - 1) * ns_per_day));
    [|done].
  pose proof (Timestamp_2024_fits periods). lia.
Qed.

Lemma date_range_negative start periods :
  periods < 0 → date_range start periods = Raise OverflowError.
Proof.
  intros Hp. unfold date_range.
  destruct (Z.ltb_spec periods 0); [done | lia].
Qed.

Lemma date_range_out_of_bounds periods :
  87029 < periods →
  date_range (Timestamp_ymd 2024 1 1) periods
  = if uint64_max <? periods then Raise OverflowError
    else Raise OutOfBoundsDatetime.
Proof.
  intros Hp. unfold date_range.
  destruct (Z.ltb_spec periods 0); [lia|].
  destruct (Z.ltb_spec uint64_max periods); [done|].
  destruct (Z.ltb_spec 0 periods); [|lia].
  destruct (Z.ltb_spec int64_max
              (Timestamp_ymd 2024 1 1 + (periods - 1) * ns_per_day));
    [done|].
  pose proof (Timestamp_2024_fits periods). lia.
Qed.

Lemma Timestamp_of_day_add (n : Z) (i : Z) :
  Timestamp_of_day n + i * ns_per_day = Timestamp_of_day (n + i).
Proof. unfold Timestamp_of_day. lia. Qed.

(** What a call with a day count from 0 to 87029 returns. *)
Lemma generate_sales_data_returns num_days s :
  0 ≤ num_days ≤ 87029 →
  ∃ data s',
    generate_sales_data num_days s = Ok (data, s')
    ∧ length data = Z.to_nat num_days
    ∧ ∀ (i : nat) (r : Row), data !! i = Some r →
        Index r = Z.of_nat i
        ∧ Date r
          = Timestamp_of_day (days_from_civil 2024 1 1 + Z.of_nat i)
        ∧ 100 ≤ Sales r < 1000
        ∧ Region r ∈ region_names.
Proof.
  intros Hn. unfold generate_sales_data.
  rewrite date_range_returns by done. cbn [mbind result_bind].
  rewrite randint_returns by lia.
  pose proof (draws_length 100 (1000 - 100) (Z.to_nat num_days) s) as Hlen.
  pose proof (draws_range 100 (1000 - 100) (Z.to_nat num_days) s
                ltac:(lia)) as Hrg.
  destruct (np.draws 100 _ _ s) as [sales s1]. simpl in Hlen, Hrg.
  cbn [mbind result_bind].
  destruct (choice_region_names num_days s1 ltac:(lia))
    as (regions & s2 & -> & Hrlen & Hregions).
  cbn [mbind result_bind]. unfold DataFrame_of_columns.
  rewrite bool_decide_eq_true_2
    by (rewrite length_fmap, length_seq; lia).
  cbn [mbind result_bind]. eexists _, _. split; [done|]. split.
  { rewrite zip_rows_length; rewrite ?length_fmap, ?length_seq; lia. }
  intros i r Hi. apply zip_rows_lookup in Hi as (HI & Hd & Hs & Hr).
  split; [lia|]. split; [|split].
  - rewrite list_lookup_fmap in Hd.
    destruct (seq 0 (Z.to_nat num_days) !! i) as [j|] eqn:Hj; [|done].
    apply lookup_seq in Hj as [-> _]. simpl in Hd.
    injection Hd as <-. apply Timestamp_of_day_add.
  - eapply Forall_lookup_1 in Hrg; [|done]. simpl in Hrg. lia.
  - eapply Forall_lookup_1 in Hregions; [|done]. done.
Qed.

Lemma generate_sales_data_negative num_days s :
  num_days < 0 → generate_sales_data num_days s = Raise OverflowError.
Proof.
  intros Hn. unfold generate_sales_data.
  by rewrite date_range_negative.
Qed.

Lemma generate_sales_data_out_of_bounds num_days s :
  87029 < num_days →
  generate_sales_data num_days s
  = if uint64_max <? num_days then Raise OverflowError
    else Raise OutOfBoundsDatetime.
Proof.
  intros Hn. unfold generate_sales_data.
  rewrite date_range_out_of_bounds by done.
  by destruct (uint64_max <? num_days).
Qed.

(** The generator returns for the day counts from 0 to 87029 only. *)
Lemma generate_sales_data_Ok_range num_days s data s' :
  generate_sales_data num_days s = Ok (data, s') → 0 ≤ num_days ≤ 87029.
Proof.
  intros Hgen. destruct (Z.lt_ge_cases num_days 0) as [Hneg|Hpos].
  { by rewrite generate_sales_data_negative in Hgen. }
  destruct (Z.lt_ge_cases 87029 num_days) as [Hbig|Hfit]; [|lia].
  rewrite generate_sales_data_out_of_bounds in Hgen by done.
  by destruct (uint64_max <? num_days).
Qed.
End generator.






(** ** The filter *)

Lemma mask_and_fmap {A} (f g : A → bool) (l : list A) :
  mask_and (f <$> l) (g <$> l) = (λ x, f x && g x) <$> l.
Proof.
  unfold mask_and. induction l as [|x l IH]; [done|].
  rewrite !fmap_cons. cbn [zip_with]. by rewrite IH.
Qed.

Lemma take_where_fmap (f : Row → bool) (df : DataFrame) :
  take_where df (f <$> df) = filter (λ r, f r = true) df.
Proof.
  induction df as [|r df IH]; [done|].
  rewrite fmap_cons, filter_cons. cbn [take_where]. destruct (f r) eqn:Hr.
  - rewrite decide_True by done. by rewrite IH.
  - rewrite decide_False by done. by rewrite IH.
Qed.

(** The boolean indexing of the script never meets a mask of the wrong
    length, and keeps the rows the inclusion predicate holds of. *)
Lemma filtered_df_returns df start_date end_date selected_regions :
  filtered_df df start_date end_date selected_regions
    = Ok (filter (included start_date end_date selected_regions) df).
Proof.
  unfold filtered_df, series_ge, series_le, series_isin.
  rewrite <-!list_fmap_compose, !mask_and_fmap.
  unfold getitem_mask. rewrite bool_decide_eq_true_2 by apply length_fmap.
  f_equal. rewrite take_where_fmap. apply list_filter_iff. intros r.
  unfold included. simpl.
  rewrite !andb_true_iff, !bool_decide_eq_true. tauto.
Qed.

Lemma filter_none {A} (P : A → Prop) `{∀ x, Decision (P x)} (l : list A) :
  (∀ x, x ∈ l → ¬ P x) → filter P l = [].
Proof.
  induction l as [|x l IH]; intros Hl; [done|].
  rewrite filter_cons, decide_False by (apply Hl; left).
  apply IH. intros y Hy. apply Hl. by right.
Qed.

(** C1: when no region is selected, or the start of the range lies after
    its end, the run raises nothing: the view is empty, the total and the
    count are 0, the average is [NaN] (the no-data value of pandas) and both
    grouped frames are empty. *)
Theorem rerun_empty_selection_or_inverted_range (df : DataFrame)
    (start_date end_date : Timestamp) (selected_regions : list string) :
  selected_regions = [] ∨ end_date < start_date →
  filtered_df df start_date end_date selected_regions = Ok []
  ∧ rerun df start_date end_date selected_regions
    = Ok {| Globals.df := df;
            Globals.filtered_df := [];
            Globals.total_sales := 0;
            Globals.avg_daily_sales := NaN;
            Globals.num_transactions := 0;
            Globals.daily_sales_trend := [];
            Globals.sales_by_region := [] |}.
Proof.
  intros Hcrit.
  assert (filtered_df df start_date end_date selected_regions = Ok [])
    as Hview.
  { rewrite filtered_df_returns. f_equal. apply filter_none.
    intros r _ [Hdate Hregion]. destruct Hcrit as [->|Hinv].
    - by apply not_elem_of_nil in Hregion.
    - lia. }
  split; [done|]. unfold rerun. rewrite Hview. reflexivity.
Qed.

(** C3: the filter returns exactly the records of the frame that satisfy the
    inclusion predicate, in the order of the frame, and the frame the script
    holds after the run is the one it held before. *)
Theorem filtered_df_exact (df : DataFrame) (start_date end_date : Timestamp)
    (selected_regions : list string) :
  ∃ view,
    filtered_df df start_date end_date selected_regions = Ok view
    ∧ view = filter (included start_date end_date selected_regions) df
    ∧ view `sublist_of` df
    ∧ (∀ r, r ∈ view
            ↔ r ∈ df ∧ start_date ≤ Date r ≤ end_date
              ∧ Region r ∈ selected_regions)
    ∧ ∃ g, rerun df start_date end_date selected_regions = Ok g
           ∧ Globals.filtered_df g = view
           ∧ Globals.df g = df.
Proof.
  eexists. split; [apply filtered_df_returns|]. split; [done|].
  split; [apply sublist_filter|]. split.
  - intros r. rewrite list_elem_of_filter. unfold included. tauto.
  - unfold rerun. rewrite filtered_df_returns. cbn [mbind result_bind].
    eexists. split; [done|]. done.
Qed.

(** ** Sums *)

#[global] Instance series_sum_Permutation :
  Proper ((≡ₚ) ==> (=)) series_sum.
Proof.
  intros l1 l2 Hl. induction Hl; simpl in *; lia.
Qed.

Lemma series_sum_cons (x : Z) (l : list Z) :
  series_sum (x :: l) = x + series_sum l.
Proof. done. Qed.

Lemma series_sum_fmap_add {A} (f g : A → Z) (l : list A) :
  series_sum ((λ x, f x + g x) <$> l)
    = series_sum (f <$> l) + series_sum (g <$> l).
Proof.
  induction l as [|x l IH]; [done|].
  rewrite !fmap_cons, !series_sum_cons, IH. lia.
Qed.

Lemma series_sum_fmap_zero {A} (l : list A) :
  series_sum ((λ _ : A, 0) <$> l) = 0.
Proof.
  induction l as [|x l IH]; [done|].
  by rewrite fmap_cons, series_sum_cons, IH.
Qed.

(** A value counted at the one place of [ks] that equals [x]. *)
Lemma series_sum_at {K} `{EqDecision K} (ks : list K) (x : K) (v : Z) :
  NoDup ks → x ∈ ks →
  series_sum ((λ k, if decide (x = k) then v else 0) <$> ks) = v.
Proof.
  induction ks as [|k ks IH]; intros Hnd Hx.
  { by apply not_elem_of_nil in Hx. }
  apply NoDup_cons in Hnd as [Hk Hnd]. rewrite fmap_cons, series_sum_cons.
  destruct (decide (x = k)) as [->|Hne].
  - rewrite (Forall_fmap_ext_1 _ (λ _, 0)).
    + rewrite series_sum_fmap_zero. lia.
    + apply Forall_forall. intros k' Hk'.
      rewrite decide_False; [done|]. by intros <-.
  - rewrite IH; [lia | done |]. apply elem_of_cons in Hx as [?|?]; done.
Qed.

(** ** Grouping *)

Section groupby_facts.
Context {K : Type} `{EqDecision K}.
Context (le : relation K) `{∀ x y, Decision (le x y)}.
Implicit Types (key : Row → K) (df : DataFrame) (l : list K).

Lemma elem_of_unique l x : x ∈ unique l ↔ x ∈ l.
Proof.
  induction l as [|y l IH]; [done|]. cbn [unique].
  rewrite !elem_of_cons, list_elem_of_filter, IH.
  destruct (decide (x = y)); tauto.
Qed.

Lemma NoDup_unique l : NoDup (unique l).
Proof.
  induction l as [|y l IH]; cbn [unique]; [constructor|].
  apply NoDup_cons. split; [|by apply NoDup_filter].
  rewrite list_elem_of_filter. tauto.
Qed.

Lemma filter_all {A} (P : A → Prop) `{∀ x, Decision (P x)} (xs : list A) :
  (∀ x, x ∈ xs → P x) → filter P xs = xs.
Proof.
  induction xs as [|x xs IH]; intros Hxs; [done|].
  rewrite filter_cons, decide_True by (apply Hxs; left).
  f_equal. apply IH. intros y Hy. apply Hxs. by right.
Qed.

Lemma unique_NoDup l : NoDup l → unique l = l.
Proof.
  induction l as [|y l IH]; intros Hnd; [done|].
  apply NoDup_cons in Hnd as [Hy Hnd]. cbn [unique].
  rewrite IH by done. f_equal. apply filter_all.
  intros x Hx ->. done.
Qed.

Lemma group_keys_Permutation key df :
  group_keys le key df ≡ₚ unique (key <$> df).
Proof. apply merge_sort_Permutation. Qed.

Lemma NoDup_group_keys key df : NoDup (group_keys le key df).
Proof. rewrite group_keys_Permutation. apply NoDup_unique. Qed.

Lemma elem_of_group_keys key df k :
  k ∈ group_keys le key df ↔ ∃ r, r ∈ df ∧ key r = k.
Proof.
  rewrite group_keys_Permutation, elem_of_unique, list_elem_of_fmap.
  split; intros (r & ? & ?); by exists r.
Qed.

Lemma groupby_sum_keys key df :
  (groupby_sum le key df).*1 = group_keys le key df.
Proof.
  unfold groupby_sum. rewrite <-list_fmap_compose.
  rewrite <-(list_fmap_id (group_keys le key df)) at 2.
  by apply list_fmap_ext.
Qed.

Lemma length_groupby_sum key df :
  length (groupby_sum le key df) = length (unique (key <$> df)).
Proof.
  unfold groupby_sum. rewrite length_fmap.
  apply Permutation_length, group_keys_Permutation.
Qed.

Lemma elem_of_groupby_sum key df k v :
  (k, v) ∈ groupby_sum le key df
  ↔ (∃ r, r ∈ df ∧ key r = k)
    ∧ v = series_sum (Sales <$> filter (λ r, key r = k) df).
Proof.
  unfold groupby_sum. rewrite list_elem_of_fmap. split.
  - intros (k' & [= -> ->] & Hk). split; [|done].
    by apply elem_of_group_keys.
  - intros [Hk ->]. exists k. split; [done|].
    by apply elem_of_group_keys.
Qed.

(** The sales of a frame, split over any duplicate-free list of keys that
    holds the key of every row. *)
Lemma series_sum_by_key key df (ks : list K) :
  NoDup ks → (∀ r, r ∈ df → key r ∈ ks) →
  series_sum
    ((λ k, series_sum (Sales <$> filter (λ r, key r = k) df)) <$> ks)
  = series_sum (Sales <$> df).
Proof.
  intros Hnd. induction df as [|r df IH]; intros Hks.
  { simpl. apply series_sum_fmap_zero. }
  rewrite fmap_cons, series_sum_cons.
  rewrite <-IH by (intros r' Hr'; apply Hks; by right).
  rewrite <-(series_sum_at ks (key r) (Sales r)) at 1
    by (done || apply Hks; left).
  rewrite <-series_sum_fmap_add. f_equal.
  apply list_fmap_ext. intros _ k _. rewrite filter_cons.
  destruct (decide (key r = k));
    rewrite ?fmap_cons, ?series_sum_cons; lia.
Qed.

(** The group sums add up to the sum of the whole column. *)
Lemma groupby_sum_total key df :
  series_sum (groupby_sum le key df).*2 = series_sum (Sales <$> df).
Proof.
  unfold groupby_sum. rewrite <-list_fmap_compose.
  rewrite <-(series_sum_by_key key df (group_keys le key df)).
  - done.
  - apply NoDup_group_keys.
  - intros r Hr. apply elem_of_group_keys. eauto.
Qed.

Context `{!Total le, !Transitive le, !AntiSymm (=) le}.

Lemma StronglySorted_group_keys key df :
  StronglySorted le (group_keys le key df).
Proof. by apply StronglySorted_merge_sort. Qed.

(** The group keys depend on the set of keys of the frame only. *)
Lemma group_keys_canonical key df df' :
  (∀ k, k ∈ key <$> df ↔ k ∈ key <$> df') →
  group_keys le key df = group_keys le key df'.
Proof.
  intros Hkeys.
  apply (StronglySorted_unique le); [apply StronglySorted_group_keys..|].
  apply NoDup_Permutation; [apply NoDup_group_keys..|].
  intros k. rewrite !group_keys_Permutation, !elem_of_unique. done.
Qed.

(** The grouped sums do not depend on the order of the rows. *)
Lemma groupby_sum_Permutation key df df' :
  df ≡ₚ df' → groupby_sum le key df = groupby_sum le key df'.
Proof.
  intros Hdf. unfold groupby_sum.
  rewrite (group_keys_canonical key df df')
    by (intros k; by rewrite Hdf).
  apply list_fmap_ext. intros _ k _. f_equal.
  by rewrite Hdf.
Qed.
End groupby_facts.

(** ** The order of strings *)

Lemma ascii_compare_refl (c : ascii) : Ascii.compare c c = Eq.
Proof. unfold Ascii.compare. apply N.compare_refl. Qed.

Lemma ascii_compare_Lt_trans (a b c : ascii) :
  Ascii.compare a b = Lt → Ascii.compare b c = Lt → Ascii.compare a c = Lt.
Proof. unfold Ascii.compare. rewrite !N.compare_lt_iff. lia. Qed.

Lemma string_compare_Lt_trans (a b c : string) :
  String.compare a b = Lt → String.compare b c = Lt →
  String.compare a c = Lt.
Proof.
  revert b c. induction a as [|x a IH]; intros [|y b] [|z c];
    cbn [String.compare]; try done.
  destruct (Ascii.compare x y) eqn:Hxy; try done;
    destruct (Ascii.compare y z) eqn:Hyz; try done.
  - apply Ascii.compare_eq_iff in Hxy as ->.
    apply Ascii.compare_eq_iff in Hyz as ->.
    rewrite ascii_compare_refl. apply IH.
  - apply Ascii.compare_eq_iff in Hxy as ->. by rewrite Hyz.
  - apply Ascii.compare_eq_iff in Hyz as <-. by rewrite Hxy.
  - by rewrite (ascii_compare_Lt_trans _ _ _ Hxy Hyz).
Qed.

#[global] Instance str_le_total : Total str_le.
Proof. intros a b. apply String.leb_total. Qed.

#[global] Instance str_le_antisymm : AntiSymm (=) str_le.
Proof. intros a b. apply String.leb_antisym. Qed.

#[global] Instance str_le_trans : Transitive str_le.
Proof.
  intros a b c. unfold str_le, String.leb.
  destruct (String.compare a b) eqn:Hab; [| |done].
  { apply String.compare_eq_iff in Hab as ->. done. }
  destruct (String.compare b c) eqn:Hbc; [| |done].
  - apply String.compare_eq_iff in Hbc as <-. by rewrite Hab.
  - by rewrite (string_compare_Lt_trans _ _ _ Hab Hbc).
Qed.

(** ** The sums of the grouped frames *)

(** C5: the Sales column of the frame grouped by date adds up to the total
    sales metric. *)
Theorem daily_sales_trend_total (view : DataFrame) :
  series_sum (daily_sales_trend view).*2 = total_sales view.
Proof. apply groupby_sum_total. Qed.

(** C9: the Sales column of the frame grouped by region adds up to the
    total sales metric. *)
Theorem sales_by_region_total (view : DataFrame) :
  series_sum (sales_by_region view).*2 = total_sales view.
Proof. apply groupby_sum_total. Qed.

(** C8: the frame grouped by region is a function of the rows of the view
    alone, whatever their order: its rows come in the ascending order of the
    region names.  Two calls on one view are the case [view' = view]. *)
Theorem sales_by_region_deterministic (view view' : DataFrame) :
  view ≡ₚ view' →
  sales_by_region view = sales_by_region view'
  ∧ StronglySorted str_le (sales_by_region view).*1
  ∧ NoDup (sales_by_region view).*1.
Proof.
  intros Hview. split; [|split].
  - by apply groupby_sum_Permutation; try apply _.
  - unfold sales_by_region. rewrite groupby_sum_keys.
    apply StronglySorted_group_keys; apply _.
  - unfold sales_by_region. rewrite groupby_sum_keys.
    apply NoDup_group_keys.
Qed.

(** ** Calendar dates *)

Lemma ns_per_day_pos : 0 < ns_per_day.
Proof. unfold ns_per_day. lia. Qed.

Lemma calendar_date_of_day (n : Z) : calendar_date (Timestamp_of_day n) = n.
Proof.
  unfold calendar_date, Timestamp_of_day.
  apply Z.div_mul. pose proof ns_per_day_pos. lia.
Qed.

Lemma normalized_of_day (n : Z) : normalized (Timestamp_of_day n).
Proof.
  unfold normalized, Timestamp_of_day.
  apply Z.mod_mul. pose proof ns_per_day_pos. lia.
Qed.

Lemma normalized_of_calendar_date (t : Timestamp) :
  normalized t → t = Timestamp_of_day (calendar_date t).
Proof.
  unfold normalized, Timestamp_of_day, calendar_date. intros Ht.
  pose proof ns_per_day_pos.
  pose proof (Z.div_mod t ns_per_day ltac:(lia)). lia.
Qed.

Lemma calendar_date_inj (t1 t2 : Timestamp) :
  normalized t1 → normalized t2 →
  calendar_date t1 = calendar_date t2 → t1 = t2.
Proof.
  intros H1 H2 Hcd.
  rewrite (normalized_of_calendar_date t1 H1).
  rewrite (normalized_of_calendar_date t2 H2). by rewrite Hcd.
Qed.

Lemma calendar_date_lt (t1 t2 : Timestamp) :
  normalized t1 → normalized t2 → t1 ≤ t2 → t1 ≠ t2 →
  calendar_date t1 < calendar_date t2.
Proof.
  intros H1 H2 Hle Hne.
  destruct (Z.lt_ge_cases (calendar_date t1) (calendar_date t2)); [done|].
  exfalso. apply Hne.
  rewrite (normalized_of_calendar_date t1 H1) in Hle |- *.
  rewrite (normalized_of_calendar_date t2 H2) in Hle |- *.
  unfold Timestamp_of_day in *. pose proof ns_per_day_pos. nia.
Qed.

(** ** The frame grouped by date *)

Lemma filter_ext_in {A} (P Q : A → Prop) `{∀ x, Decision (P x)}
    `{∀ x, Decision (Q x)} (l : list A) :
  (∀ x, x ∈ l → P x ↔ Q x) → filter P l = filter Q l.
Proof.
  induction l as [|x l IH]; intros Hl; [done|].
  rewrite !filter_cons.
  rewrite IH by (intros y Hy; apply Hl; by right).
  assert (P x ↔ Q x) as Hx by (apply Hl; left).
  destruct (decide (P x)), (decide (Q x)); tauto.
Qed.

Lemma length_filter_eq_NoDup {A} `{EqDecision A} (l : list A) (x : A) :
  NoDup l → x ∈ l → length (filter (λ y, y = x) l) = 1%nat.
Proof.
  induction l as [|y l IH]; intros Hnd Hx.
  { by apply not_elem_of_nil in Hx. }
  apply NoDup_cons in Hnd as [Hy Hnd]. rewrite filter_cons.
  destruct (decide (y = x)) as [->|Hne].
  - rewrite filter_none; [done|]. intros z Hz ->. done.
  - apply IH; [done|]. apply elem_of_cons in Hx as [?|?]; done.
Qed.

Lemma StronglySorted_le_lt (l : list Z) :
  StronglySorted Z.le l → NoDup l → StronglySorted Z.lt l.
Proof.
  induction 1 as [|x l Hl IH Hx]; intros Hnd; [constructor|].
  apply NoDup_cons in Hnd as [Hxl Hnd]. constructor; [by apply IH|].
  apply Forall_forall. intros y Hy.
  rewrite Forall_forall in Hx. specialize (Hx y Hy).
  assert (x ≠ y) by (by intros ->). lia.
Qed.

Section by_date.
Context (view : DataFrame) (Hview : normalized_dates view).

Lemma normalized_in_view r : r ∈ view → normalized (Date r).
Proof. intros Hr. unfold normalized_dates in Hview.
  rewrite Forall_forall in Hview. by apply Hview. Qed.

Lemma group_keys_normalized k :
  k ∈ group_keys Z.le Date view → normalized k.
Proof.
  rewrite elem_of_group_keys. intros (r & Hr & <-).
  by apply normalized_in_view.
Qed.

(** On calendar dates, grouping by the timestamp is grouping by the
    day. *)
Lemma filter_by_date k :
  normalized k →
  filter (λ r, Date r = k) view
    = filter (λ r, calendar_date (Date r) = calendar_date k) view.
Proof.
  intros Hk. apply filter_ext_in. intros r Hr. split; [by intros ->|].
  apply calendar_date_inj; [by apply normalized_in_view | done].
Qed.

Lemma group_keys_dates_sorted :
  StronglySorted Z.lt (calendar_date <$> group_keys Z.le Date view).
Proof.
  pose proof (StronglySorted_le_lt _
    (StronglySorted_group_keys Z.le Date view)
    (NoDup_group_keys Z.le Date view)) as Hsorted.
  pose proof group_keys_normalized as Hnorm.
  induction Hsorted as [|k ks Hks IH Hk]; [constructor|].
  rewrite fmap_cons. constructor.
  - apply IH. intros k' Hk'. apply Hnorm. by right.
  - apply Forall_fmap, Forall_forall. intros k' Hk'. simpl.
    rewrite Forall_forall in Hk. specialize (Hk k' Hk').
    apply calendar_date_lt; [apply Hnorm; left | apply Hnorm; by right
                            | lia | lia].
Qed.

Lemma group_keys_dates (d : Z) :
  d ∈ calendar_date <$> group_keys Z.le Date view ↔ d ∈ dates_of view.
Proof.
  unfold dates_of. rewrite !list_elem_of_fmap. split.
  - intros (k & -> & Hk). apply elem_of_group_keys in Hk as (r & Hr & <-).
    by exists r.
  - intros (r & -> & Hr). exists (Date r). split; [done|].
    apply elem_of_group_keys. by exists r.
Qed.

Lemma NoDup_group_keys_dates :
  NoDup (calendar_date <$> group_keys Z.le Date view).
Proof.
  apply (NoDup_fmap_2_strong calendar_date); [|apply NoDup_group_keys].
  intros k1 k2 Hk1 Hk2. apply calendar_date_inj;
    by apply group_keys_normalized.
Qed.

(** The group keys of the grouping by date are, day by day, the distinct
    dates present in the view. *)
Lemma dates_present_Permutation :
  elements (dates_present view)
    ≡ₚ calendar_date <$> group_keys Z.le Date view.
Proof.
  apply NoDup_Permutation.
  - apply NoDup_elements.
  - apply NoDup_group_keys_dates.
  - intros d. unfold dates_present.
    by rewrite elem_of_elements, elem_of_list_to_set, group_keys_dates.
Qed.
End by_date.

(** The sum of pandas agrees with the arithmetic sum. *)
Lemma series_sum_arithmetic (l : list Z) :
  series_sum l = arithmetic_sum l.
Proof.
  induction l as [|x l IH]; [done|].
  rewrite series_sum_cons, IH. done.
Qed.

#[global] Instance arithmetic_sum_Permutation :
  Proper ((≡ₚ) ==> (=)) arithmetic_sum.
Proof.
  intros l1 l2 Hl. rewrite <-!series_sum_arithmetic. by rewrite Hl.
Qed.

Lemma length_filter_fmap_eq {A B} `{EqDecision B} (f : A → B) (y : B)
    (l : list A) :
  length (filter (λ x, f x = y) l) = length (filter (λ z, z = y) (f <$> l)).
Proof.
  induction l as [|x l IH]; [done|].
  rewrite fmap_cons, !filter_cons.
  destruct (decide (f x = y)); simpl; by rewrite IH.
Qed.

(** C7: on a view whose Date column holds calendar dates, the frame grouped
    by date has exactly one row for every calendar date of the view and no
    row for any other date, its rows ascend strictly by date, and the row of
    a date carries the sum of the sales of the records of that date. *)
Theorem daily_sales_trend_rows (view : DataFrame) :
  normalized_dates view →
  (∀ d, d ∈ dates_of view →
     length (filter (λ row, calendar_date row.1 = d)
               (daily_sales_trend view)) = 1%nat)
  ∧ (∀ d, d ∉ dates_of view →
       filter (λ row, calendar_date row.1 = d) (daily_sales_trend view)
         = [])
  ∧ StronglySorted Z.lt
      ((λ row, calendar_date row.1) <$> daily_sales_trend view)
  ∧ (∀ row, row ∈ daily_sales_trend view →
       row.2 = sales_on view (calendar_date row.1)).
Proof.
  intros Hview. unfold daily_sales_trend.
  assert ((λ row : Timestamp * Z, calendar_date row.1)
            <$> groupby_sum Z.le Date view
          = calendar_date <$> group_keys Z.le Date view) as Hdates.
  { rewrite <-(groupby_sum_keys Z.le Date view), <-list_fmap_compose.
    done. }
  split; [|split; [|split]].
  - intros d Hd.
    rewrite (length_filter_fmap_eq (λ row : Timestamp * Z,
                                      calendar_date row.1)), Hdates.
    apply length_filter_eq_NoDup.
    + by apply NoDup_group_keys_dates.
    + by apply group_keys_dates.
  - intros d Hd. apply filter_none. intros row Hrow Hrd. apply Hd.
    apply (group_keys_dates view). rewrite <-Hdates.
    apply list_elem_of_fmap. by exists row.
  - rewrite Hdates. by apply group_keys_dates_sorted.
  - intros [k v] Hrow. apply elem_of_groupby_sum in Hrow as [Hk ->].
    simpl. unfold sales_on. rewrite series_sum_arithmetic.
    rewrite (filter_by_date view Hview k); [done|].
    destruct Hk as (r & Hr & <-). by apply (normalized_in_view view).
Qed.

Lemma series_mean_nonempty (l : list Z) :
  l ≠ [] →
  series_mean l
    = Float (inject_Z (series_sum l) / inject_Z (Z.of_nat (length l))).
Proof. by destruct l. Qed.

(** C6: on a view whose Date column holds calendar dates, at least one of
    them, the average daily sales are the arithmetic mean, over the set of
    the distinct dates present in the view, of the sum of the sales of the
    records of each date: that sum over the dates, divided by the number of
    distinct dates, not by the number of records. *)
Theorem avg_daily_sales_mean_over_dates (view : DataFrame) :
  normalized_dates view →
  dates_present view ≠ ∅ →
  avg_daily_sales view = Float (mean_over_dates view).
Proof.
  intros Hview Hne. unfold avg_daily_sales, mean_over_dates.
  pose proof (dates_present_Permutation view Hview) as Hperm.
  assert (length (groupby_sum Z.le Date view).*2
          = size (dates_present view)) as Hlen.
  { rewrite length_fmap, <-(length_fmap fst), groupby_sum_keys.
    change (size (dates_present view))
      with (length (elements (dates_present view))).
    by rewrite Hperm, length_fmap. }
  rewrite series_mean_nonempty.
  - rewrite Hlen, groupby_sum_total. do 3 f_equal.
    rewrite <-(series_sum_arithmetic (sales_on view <$> _)).
    rewrite <-(series_sum_by_key (λ r, calendar_date (Date r)) view
                 (elements (dates_present view))).
    + f_equal.
    + apply NoDup_elements.
    + intros r Hr. apply elem_of_elements, elem_of_list_to_set.
      unfold dates_of. apply list_elem_of_fmap. by exists r.
  - intros Hnil. apply Hne. apply leibniz_equiv, size_empty_inv.
    rewrite <-Hlen, Hnil. done.
Qed.

(** ** Views of generated frames *)

Lemma generated_dates `{G : BitGenerator} num_days s data s' :
  generate_sales_data num_days s = Ok (data, s') →
  normalized_dates data ∧ NoDup (dates_of data).
Proof.
  intros Hgen.
  pose proof (generate_sales_data_Ok_range _ _ _ _ Hgen) as Hpos.
  destruct (generate_sales_data_returns num_days s Hpos)
    as (data0 & s0 & Hgen0 & _ & Hrows).
  rewrite Hgen in Hgen0. injection Hgen0 as <- <-. split.
  - apply Forall_forall. intros r Hr.
    apply list_elem_of_lookup in Hr as [i Hi].
    apply Hrows in Hi as (_ & -> & _). apply normalized_of_day.
  - apply NoDup_alt. intros i j d. unfold dates_of.
    rewrite !list_lookup_fmap.
    destruct (data !! i) as [ri|] eqn:Hi; [|done].
    destruct (data !! j) as [rj|] eqn:Hj; [|done].
    apply Hrows in Hi as (_ & Hi & _). apply Hrows in Hj as (_ & Hj & _).
    simpl. rewrite Hi, Hj, !calendar_date_of_day. intros [= <-] [= ?]. lia.
Qed.

Lemma dates_of_NoDup_Date (view : DataFrame) :
  NoDup (dates_of view) → NoDup (Date <$> view).
Proof.
  unfold dates_of. intros Hnd. apply (NoDup_fmap_1 calendar_date).
  by rewrite <-list_fmap_compose.
Qed.

Lemma length_daily_sales_trend_NoDup (view : DataFrame) :
  NoDup (Date <$> view) → length (daily_sales_trend view) = length view.
Proof.
  intros Hnd. unfold daily_sales_trend.
  by rewrite length_groupby_sum, unique_NoDup, length_fmap.
Qed.

(** C10: in a view of a generated frame no two records share a calendar
    date; so the frame grouped by date has as many rows as the view has
    records, and on a view that is not empty the average daily sales are the
    total sales divided by the number of records. *)
Theorem generated_view_one_record_per_day `{G : BitGenerator}
    (num_days : Z) (s s' : rng_state) (data view : DataFrame)
    (start_date end_date : Timestamp) (selected_regions : list string) :
  generate_sales_data num_days s = Ok (data, s') →
  filtered_df data start_date end_date selected_regions = Ok view →
  NoDup (dates_of view)
  ∧ Z.of_nat (length (daily_sales_trend view)) = num_transactions view
  ∧ (view ≠ [] →
     avg_daily_sales view
       = Float (inject_Z (total_sales view)
                / inject_Z (num_transactions view))).
Proof.
  intros Hgen Hview. apply generated_dates in Hgen as [_ Hnd].
  rewrite filtered_df_returns in Hview. injection Hview as <-.
  set (view := filter _ data).
  assert (NoDup (dates_of view)) as Hdates.
  { apply (sublist_NoDup _ (dates_of data)); [exact Hnd|].
    unfold dates_of. apply fmap_sublist, sublist_filter. }
  pose proof (length_daily_sales_trend_NoDup view
                (dates_of_NoDup_Date view Hdates)) as Hlen.
  split; [done|]. split.
  { unfold num_transactions. by rewrite Hlen. }
  intros Hne. unfold avg_daily_sales, num_transactions, total_sales.
  unfold daily_sales_trend in Hlen. rewrite series_mean_nonempty.
  - by rewrite groupby_sum_total, length_fmap, Hlen.
  - intros Hnil. apply (f_equal length) in Hnil.
    rewrite length_fmap, Hlen in Hnil. by destruct view.
Qed.

(** ** The cache *)

Section cache.
Context `{G : BitGenerator}.

Lemma cache_data_sound (arg : Z) (w w' : World) (data : DataFrame) :
  cache_sound w →
  cache_data generate_sales_data arg w = Ok (data, w') →
  cache_sound w' ∧ ∃ s s', generate_sales_data arg s = Ok (data, s').
Proof.
  intros Hw. unfold cache_data.
  destruct (st_cache w !! arg) as [kept|] eqn:Hkept.
  - intros [= -> ->]. split; [done|]. by apply Hw.
  - destruct (generate_sales_data arg (np_random w))
      as [[data0 s0]|e] eqn:Hgen; [|done].
    intros [= -> <-]. split; [|by eauto].
    intros n kept. simpl. rewrite lookup_insert.
    destruct (decide (arg = n)) as [->|Hne].
    + intros [= <-]. eauto.
    + apply Hw.
Qed.

(** A second call with an argument seen before returns the kept frame
    and draws nothing. *)
Lemma cache_data_again f (arg : Z) (w w' : World) (data : DataFrame) :
  cache_data f arg w = Ok (data, w') →
  cache_data f arg w' = Ok (data, w').
Proof.
  unfold cache_data at 1.
  destruct (st_cache w !! arg) as [kept|] eqn:Hkept.
  - intros [= -> ->]. unfold cache_data. by rewrite Hkept.
  - destruct (f arg (np_random w)) as [[data0 s0]|e]; [|done].
    intros [= -> <-]. unfold cache_data. simpl.
    by rewrite lookup_insert_eq.
Qed.

(** The script never raises: it holds a frame of 200 records, whatever
    the widgets returned. *)
Lemma script_returns (start_date end_date : Timestamp)
    (selected_regions : list string) (w : World) :
  cache_sound w →
  ∃ g w',
    script start_date end_date selected_regions w = Ok (g, w')
    ∧ cache_sound w'
    ∧ length (Globals.df g) = 200%nat
    ∧ Globals.filtered_df g
      = filter (included start_date end_date selected_regions)
          (Globals.df g).
Proof.
  intros Hw. unfold script.
  assert (∃ data w', cache_data generate_sales_data 200 w
                       = Ok (data, w')) as (data & w' & Hdata).
  { unfold cache_data. destruct (st_cache w !! 200); [by eauto|].
    destruct (generate_sales_data_returns 200 (np_random w) ltac:(lia))
      as (data & s' & -> & _). by eauto. }
  rewrite Hdata.
  destruct (cache_data_sound _ _ _ _ Hw Hdata) as (Hw' & s & s' & Hgen).
  unfold rerun. rewrite filtered_df_returns. cbn [mbind result_bind].
  eexists _, _. split; [done|]. split; [done|]. split; [|done]. simpl.
  destruct (generate_sales_data_returns 200 s ltac:(lia))
    as (data0 & s0 & Hgen0 & Hlen & _).
  rewrite Hgen in Hgen0. injection Hgen0 as <- <-. by rewrite Hlen.
Qed.
End cache.

(** ** The script on concrete frames *)

Lemma rerun_empty_selection_or_inverted_range_witness :
  (["South"%string] = [] ∨ Timestamp_ymd 2024 1 1 < Timestamp_ymd 2024 1 5)
  ∧ filtered_df five_days (Timestamp_ymd 2024 1 5) (Timestamp_ymd 2024 1 1)
      ["South"%string] = Ok []
  ∧ rerun five_days (Timestamp_ymd 2024 1 5) (Timestamp_ymd 2024 1 1)
      ["South"%string]
    = Ok {| Globals.df := five_days;
            Globals.filtered_df := [];
            Globals.total_sales := 0;
            Globals.avg_daily_sales := NaN;
            Globals.num_transactions := 0;
            Globals.daily_sales_trend := [];
            Globals.sales_by_region := [] |}.
Proof.
  split; [right; reflexivity|].
  apply (rerun_empty_selection_or_inverted_range five_days
           (Timestamp_ymd 2024 1 5) (Timestamp_ymd 2024 1 1)
           ["South"%string]).
  right. reflexivity.
Defined.

Lemma two_on_one_day_normalized : normalized_dates two_on_one_day.
Proof. repeat constructor. Defined.

Lemma daily_sales_trend_rows_witness :
  normalized_dates two_on_one_day
  ∧ (∀ d, d ∈ dates_of two_on_one_day →
       length (filter (λ row, calendar_date row.1 = d)
                 (daily_sales_trend two_on_one_day)) = 1%nat)
  ∧ (∀ d, d ∉ dates_of two_on_one_day →
       filter (λ row, calendar_date row.1 = d)
         (daily_sales_trend two_on_one_day) = [])
  ∧ StronglySorted Z.lt
      ((λ row, calendar_date row.1) <$> daily_sales_trend two_on_one_day)
  ∧ (∀ row, row ∈ daily_sales_trend two_on_one_day →
       row.2 = sales_on two_on_one_day (calendar_date row.1)).
Proof.
  split; [exact two_on_one_day_normalized|].
  apply (daily_sales_trend_rows two_on_one_day).
  exact two_on_one_day_normalized.
Defined.

(** Two distinct dates over three records: the mean over the dates is 60
    over 2. *)
Example mean_over_dates_two_on_one_day :
  mean_over_dates two_on_one_day = 60 # 2
  ∧ size (dates_present two_on_one_day) = 2%nat
  ∧ length two_on_one_day = 3%nat.
Proof. by vm_compute. Qed.

Lemma two_on_one_day_dates_present : dates_present two_on_one_day ≠ ∅.
Proof.
  intros Hempty.
  assert (19724 ∈ dates_present two_on_one_day) as Hin.
  { apply elem_of_list_to_set. by left. }
  rewrite Hempty in Hin. by apply not_elem_of_empty in Hin.
Defined.

Lemma avg_daily_sales_mean_over_dates_witness :
  normalized_dates two_on_one_day
  ∧ dates_present two_on_one_day ≠ ∅
  ∧ avg_daily_sales two_on_one_day = Float (mean_over_dates two_on_one_day).
Proof.
  split; [exact two_on_one_day_normalized|].
  split; [exact two_on_one_day_dates_present|].
  apply (avg_daily_sales_mean_over_dates two_on_one_day).
  - exact two_on_one_day_normalized.
  - exact two_on_one_day_dates_present.
Defined.

Lemma sales_by_region_deterministic_witness :
  two_on_one_day ≡ₚ two_on_one_day
  ∧ sales_by_region two_on_one_day = sales_by_region two_on_one_day
  ∧ StronglySorted str_le (sales_by_region two_on_one_day).*1
  ∧ NoDup (sales_by_region two_on_one_day).*1.
Proof.
  split; [reflexivity|].
  apply (sales_by_region_deterministic two_on_one_day two_on_one_day).
  reflexivity.
Defined.

Lemma generated_view_one_record_per_day_witness :
  ∃ data s' view,
    generate_sales_data (G:=lcg) 5 42 = Ok (data, s')
    ∧ filtered_df data (Timestamp_ymd 2024 1 2) (Timestamp_ymd 2024 1 4)
        ["North"; "East"; "West"]%string = Ok view
    ∧ NoDup (dates_of view)
    ∧ Z.of_nat (length (daily_sales_trend view)) = num_transactions view
    ∧ (view ≠ [] →
       avg_daily_sales view
         = Float (inject_Z (total_sales view)
                  / inject_Z (num_transactions view))).
Proof.
  eexists _, _, _. split; [reflexivity|]. split; [reflexivity|].
  eapply (generated_view_one_record_per_day (G:=lcg) 5 42 _ _ _
            (Timestamp_ymd 2024 1 2) (Timestamp_ymd 2024 1 4)
            ["North"; "East"; "West"]%string); reflexivity.
Defined.

(** The scenario of five consecutive days, all of the region North, on the
    full range and every region. *)
Example rerun_five_days :
  rerun five_days (Timestamp_ymd 2024 1 1) (Timestamp_ymd 2024 1 5)
    region_names
  = Ok {| Globals.df := five_days;
          Globals.filtered_df := five_days;
          Globals.total_sales := 1500;
          Globals.avg_daily_sales := Float (1500 # 5);
          Globals.num_transactions := 5;
          Globals.daily_sales_trend :=
            [ (Timestamp_ymd 2024 1 1, 100); (Timestamp_ymd 2024 1 2, 200);
              (Timestamp_ymd 2024 1 3, 300); (Timestamp_ymd 2024 1 4, 400);
              (Timestamp_ymd 2024 1 5, 500) ];
          Globals.sales_by_region := [("North"%string, 1500)] |}.
Proof. reflexivity. Qed.

Example rerun_five_days_average : (1500 # 5 == 300)%Q.
Proof. reflexivity. Qed.

(** The same frame with only South selected. *)
Example rerun_five_days_south :
  rerun five_days (Timestamp_ymd 2024 1 1) (Timestamp_ymd 2024 1 5)
    ["South"%string]
  = Ok {| Globals.df := five_days;
          Globals.filtered_df := [];
          Globals.total_sales := 0;
          Globals.avg_daily_sales := NaN;
          Globals.num_transactions := 0;
          Globals.daily_sales_trend := [];
          Globals.sales_by_region := [] |}.
Proof. reflexivity. Qed.

(** Two records on one day count as one day in the average: 60 over two
    days, not over three records. *)
Example rerun_two_on_one_day :
  rerun two_on_one_day (Timestamp_ymd 2024 1 1) (Timestamp_ymd 2024 1 2)
    region_names
  = Ok {| Globals.df := two_on_one_day;
          Globals.filtered_df := two_on_one_day;
          Globals.total_sales := 60;
          Globals.avg_daily_sales := Float (60 # 2);
          Globals.num_transactions := 3;
          Globals.daily_sales_trend :=
            [ (Timestamp_ymd 2024 1 1, 20); (Timestamp_ymd 2024 1 2, 40) ];
          Globals.sales_by_region :=
            [("East"%string, 50); ("West"%string, 10)] |}.
Proof. reflexivity. Qed.

(** The generator on its first five days, and on a negative count. *)
Example generate_sales_data_five :
  generate_sales_data (G:=lcg) 5 42
  = Ok ([ {| Index := 0; Date := Timestamp_ymd 2024 1 1; Sales := 127;
             Region := "North" |};
          {| Index := 1; Date := Timestamp_ymd 2024 1 2; Sales := 864;
             Region := "South" |};
          {| Index := 2; Date := Timestamp_ymd 2024 1 3; Sales := 153;
             Region := "East" |};
          {| Index := 3; Date := Timestamp_ymd 2024 1 4; Sales := 206;
             Region := "West" |};
          {| Index := 4; Date := Timestamp_ymd 2024 1 5; Sales := 335;
             Region := "North" |} ], 1535244752).
Proof. reflexivity. Qed.

Example generate_sales_data_minus_one :
  generate_sales_data (G:=lcg) (-1) 42 = Raise OverflowError.
Proof. reflexivity. Qed.

Example Timestamp_2024_01_01 :
  days_from_civil 2024 1 1 = 19723
  ∧ Timestamp_ymd 2024 1 1 = 1704067200000000000.
Proof. split; reflexivity. Qed.

(** The filter keeps calendar dates calendar dates; with [generated_dates],
    every view of a generated frame holds calendar dates only. *)
Lemma filtered_df_normalized (df view : DataFrame)
    (start_date end_date : Timestamp) (selected_regions : list string) :
  normalized_dates df →
  filtered_df df start_date end_date selected_regions = Ok view →
  normalized_dates view.
Proof.
  intros Hdf. rewrite filtered_df_returns. intros [= <-].
  unfold normalized_dates in *. rewrite Forall_forall in Hdf |- *.
  intros r Hr. apply list_elem_of_filter in Hr as [_ Hr]. by apply Hdf.
Qed.

(** ** Reruns of the script *)

Section reruns.
Context `{G : BitGenerator}.

(** A second run with the same widget values, from the state the first run
    left, gives the same values to every name of the script. *)
Lemma script_again (start_date end_date : Timestamp)
    (selected_regions : list string) (w w' : World) (g : Globals.t) :
  script start_date end_date selected_regions w = Ok (g, w') →
  script start_date end_date selected_regions w' = Ok (g, w').
Proof.
  unfold script.
  destruct (cache_data generate_sales_data 200 w) as [[data w1]|e] eqn:Hc;
    [|done].
  destruct (rerun data start_date end_date selected_regions) as [g1|e] eqn:Hr;
    [|done].
  intros [= -> ->]. by rewrite (cache_data_again _ _ _ _ _ Hc), Hr.
Qed.

(** Whatever the widgets return next, the next run works on the frame of
    this run: the frame is generated once. *)
Lemma script_same_frame (start_date end_date start_date' end_date' : Timestamp)
    (selected_regions selected_regions' : list string) (w w' : World)
    (g : Globals.t) :
  script start_date end_date selected_regions w = Ok (g, w') →
  ∃ g', script start_date' end_date' selected_regions' w' = Ok (g', w')
        ∧ Globals.df g' = Globals.df g.
Proof.
  unfold script.
  destruct (cache_data generate_sales_data 200 w) as [[data w1]|e] eqn:Hc;
    [|done].
  unfold rerun at 1. rewrite filtered_df_returns. cbn [mbind result_bind].
  intros [= <- <-]. rewrite (cache_data_again _ _ _ _ _ Hc).
  unfold rerun. rewrite filtered_df_returns. cbn [mbind result_bind].
  by eexists.
Qed.
End reruns.

(** ** The 64-bit range *)

Lemma series_sum_bounds (b : Z) (l : list Z) :
  Forall (λ x, 0 ≤ x ≤ b) l →
  0 ≤ series_sum l ≤ b * Z.of_nat (length l).
Proof.
  induction 1 as [|x l Hx Hl IH]; [simpl; lia|].
  rewrite series_sum_cons. cbn [length]. lia.
Qed.

(** X26: a frame of at most 87029 days, the days from 2024-01-01 on that a
    64-bit count of nanoseconds can date, holds no timestamp and no sales
    beyond the 64-bit range, and neither does the sum of the sales of any of
    its views. *)
Lemma generated_within_int64 `{G : BitGenerator} (num_days : Z)
    (s s' : rng_state) (data : DataFrame) :
  num_days ≤ 87029 →
  generate_sales_data num_days s = Ok (data, s') →
  Forall (λ r, 0 ≤ Date r < 2 ^ 63 ∧ 0 ≤ Sales r < 2 ^ 63) data
  ∧ ∀ view, view `sublist_of` data →
      0 ≤ series_sum (Sales <$> view) < 2 ^ 63.
Proof.
  intros Hmax Hgen.
  pose proof (generate_sales_data_Ok_range _ _ _ _ Hgen) as Hpos.
  destruct (generate_sales_data_returns num_days s Hpos)
    as (data0 & s0 & Hgen0 & Hlen & Hrows).
  rewrite Hgen in Hgen0. injection Hgen0 as <- <-.
  assert (Forall (λ r, 0 ≤ Date r < 2 ^ 63 ∧ 0 ≤ Sales r ≤ 999) data)
    as Hdata.
  { apply Forall_forall. intros r Hr.
    apply list_elem_of_lookup in Hr as [i Hi].
    pose proof (lookup_lt_Some _ _ _ Hi) as Hlt.
    apply Hrows in Hi as (_ & -> & ? & _).
    change (days_from_civil 2024 1 1) with 19723.
    unfold Timestamp_of_day, ns_per_day. lia. }
  split.
  { eapply Forall_impl; [exact Hdata|]. simpl. intros r. lia. }
  intros view Hview.
  assert (Forall (λ x, 0 ≤ x ≤ 999) (Sales <$> view)) as Hsales.
  { apply Forall_fmap, Forall_forall. intros r Hr. simpl.
    rewrite Forall_forall in Hdata.
    apply (Hdata r). by eapply elem_of_sublist. }
  apply series_sum_bounds in Hsales. rewrite length_fmap in Hsales.
  apply sublist_length in Hview. lia.
Qed.

(** ** The grouped frames by key value *)

(** X24: with no assumption on the Date column, the frame grouped by date
    has its rows in strictly ascending order of the timestamp, one for every
    timestamp of the view and none for any other. *)
Lemma daily_sales_trend_keys (view : DataFrame) :
  StronglySorted Z.lt (daily_sales_trend view).*1
  ∧ ∀ t, t ∈ (daily_sales_trend view).*1 ↔ t ∈ Date <$> view.
Proof.
  unfold daily_sales_trend. rewrite groupby_sum_keys. split.
  - apply StronglySorted_le_lt;
      [apply StronglySorted_group_keys; apply _ | apply NoDup_group_keys].
  - intros t. rewrite elem_of_group_keys, list_elem_of_fmap.
    split; intros (r & ? & ?); by exists r.
Qed.

(** The frame grouped by region likewise: one row for every region of the
    view and none for any other. *)
Lemma sales_by_region_keys (view : DataFrame) :
  ∀ x, x ∈ (sales_by_region view).*1 ↔ x ∈ Region <$> view.
Proof.
  intros x. unfold sales_by_region.
  rewrite groupby_sum_keys, elem_of_group_keys, list_elem_of_fmap.
  split; intros (r & ? & ?); by exists r.
Qed.

(** ** The generator behind its cache *)

Lemma cache_sound_fresh `{G : BitGenerator} (s : rng_state) :
  cache_sound (fresh_world s).
Proof. intros n data. unfold fresh_world. simpl. by rewrite lookup_empty. Qed.

(** X1: a call through the cache that returned a frame has kept it under
    its argument: the same call on the state it left returns the same frame
    and leaves that state as it is, and the frames kept under other
    arguments are the ones kept before. *)
Theorem cache_data_hit `{G : BitGenerator}
    (f : Z → rng_state → result (DataFrame * rng_state))
    (arg : Z) (w w' : World) (data : DataFrame) :
  cache_data f arg w = Ok (data, w') →
  st_cache w' !! arg = Some data
  ∧ cache_data f arg w' = Ok (data, w')
  ∧ ∀ other, other ≠ arg → st_cache w' !! other = st_cache w !! other.
Proof.
  intros Hcall. split; [|split].
  - revert Hcall. unfold cache_data.
    destruct (st_cache w !! arg) as [kept|] eqn:Hkept.
    + by intros [= -> ->].
    + destruct (f arg (np_random w)) as [[data0 s0]|e]; [|done].
      intros [= -> <-]. simpl. by rewrite lookup_insert_eq.
  - by eapply cache_data_again.
  - intros other Hother. revert Hcall. unfold cache_data.
    destruct (st_cache w !! arg) as [kept|] eqn:Hkept.
    + by intros [= -> ->].
    + destruct (f arg (np_random w)) as [[data0 s0]|e]; [|done].
      intros [= -> <-]. simpl. by rewrite lookup_insert_ne.
Qed.

Lemma cache_data_hit_witness :
  ∃ data w',
    cache_data (H:=lcg) generate_sales_data 3 (fresh_world (G:=lcg) 42)
      = Ok (data, w')
    ∧ st_cache w' !! 3 = Some data
    ∧ cache_data generate_sales_data 3 w' = Ok (data, w')
    ∧ ∀ other, other ≠ 3 →
        st_cache w' !! other = st_cache (fresh_world (G:=lcg) 42) !! other.
Proof.
  eexists _, _. split; [reflexivity|].
  apply (cache_data_hit (G:=lcg) generate_sales_data 3 (fresh_world (G:=lcg) 42)).
  reflexivity.
Defined.

(** X2: from a state whose cache holds results of the generator only, a
    call through the cache with a day count from 0 to 87029 returns a
    frame of that many records, dated day by day from 2024-01-01 on, with
    sales from 100 to 999 and regions among the four names, whether the
    frame is drawn now or was kept; and the cache still holds results of the
    generator only. *)
Theorem cached_generate_sales_data_shape `{G : BitGenerator}
    (num_days : Z) (w : World) :
  cache_sound w → 0 ≤ num_days ≤ 87029 →
  ∃ data w',
    cache_data generate_sales_data num_days w = Ok (data, w')
    ∧ cache_sound w'
    ∧ Z.of_nat (length data) = num_days
    ∧ ∀ (i : nat) (r : Row), data !! i = Some r →
        Index r = Z.of_nat i
        ∧ Date r = Timestamp_of_day (days_from_civil 2024 1 1 + Z.of_nat i)
        ∧ 100 ≤ Sales r < 1000
        ∧ Region r ∈ region_names.
Proof.
  intros Hw Hn.
  assert (∃ data w', cache_data generate_sales_data num_days w
                       = Ok (data, w')) as (data & w' & Hcall).
  { unfold cache_data. destruct (st_cache w !! num_days); [by eauto|].
    destruct (generate_sales_data_returns num_days (np_random w) Hn)
      as (data & s' & -> & _). by eauto. }
  exists data, w'. split; [done|].
  destruct (cache_data_sound _ _ _ _ Hw Hcall) as (Hw' & s & s' & Hgen).
  split; [done|].
  destruct (generate_sales_data_returns num_days s Hn)
    as (data0 & s0 & Hgen0 & Hlen & Hrows).
  rewrite Hgen in Hgen0. injection Hgen0 as <- <-.
  split; [lia | done].
Qed.

Lemma cached_generate_sales_data_shape_witness :
  cache_sound (fresh_world (G:=lcg) 42) ∧ 0 ≤ 3 ≤ 87029 ∧
  ∃ data w',
    cache_data (H:=lcg) generate_sales_data 3 (fresh_world (G:=lcg) 42)
      = Ok (data, w')
    ∧ cache_sound w'
    ∧ Z.of_nat (length data) = 3
    ∧ ∀ (i : nat) (r : Row), data !! i = Some r →
        Index r = Z.of_nat i
        ∧ Date r = Timestamp_of_day (days_from_civil 2024 1 1 + Z.of_nat i)
        ∧ 100 ≤ Sales r < 1000
        ∧ Region r ∈ region_names.
Proof.
  split; [apply cache_sound_fresh|]. split; [lia|].
  apply (cached_generate_sales_data_shape (G:=lcg) 3 (fresh_world (G:=lcg) 42));
    [apply cache_sound_fresh | lia].
Defined.

(** X3: from a state whose cache holds results of the generator only, a
    call through the cache with a negative day count raises the
    [OverflowError] of the generator, which is not a [ValueError]: nothing
    was ever kept for such a count, so the generator runs and fails. *)
Theorem cached_generate_sales_data_negative `{G : BitGenerator}
    (num_days : Z) (w : World) :
  cache_sound w → num_days < 0 →
  st_cache w !! num_days = None
  ∧ cache_data generate_sales_data num_days w = Raise OverflowError
  ∧ isinstance_ValueError OverflowError = false.
Proof.
  intros Hw Hn.
  assert (st_cache w !! num_days = None) as Hnone.
  { destruct (st_cache w !! num_days) as [kept|] eqn:Hkept; [|done].
    destruct (Hw _ _ Hkept) as (s & s' & Hgen).
    by rewrite generate_sales_data_negative in Hgen. }
  split; [done|]. unfold cache_data. rewrite Hnone.
  by rewrite generate_sales_data_negative.
Qed.

Lemma cached_generate_sales_data_negative_witness :
  cache_sound (fresh_world (G:=lcg) 42) ∧ -1 < 0
  ∧ st_cache (fresh_world (G:=lcg) 42) !! (-1) = None
  ∧ cache_data (H:=lcg) generate_sales_data (-1) (fresh_world (G:=lcg) 42)
    = Raise OverflowError
  ∧ isinstance_ValueError OverflowError = false.
Proof.
  split; [apply cache_sound_fresh|]. split; [lia|].
  apply (cached_generate_sales_data_negative (G:=lcg) (-1) (fresh_world (G:=lcg) 42));
    [apply cache_sound_fresh | lia].
Defined.

(** ** Runs of the whole script *)

(** X4: from a state whose cache holds results of the generator only, the
    script raises nothing, whatever the widgets returned: it holds a frame
    of 200 records, its view is the records of that frame that the criteria
    include, and its metrics and grouped frames are those of the view. *)
Theorem script_never_raises `{G : BitGenerator}
    (start_date end_date : Timestamp) (selected_regions : list string)
    (w : World) :
  cache_sound w →
  ∃ g w',
    script start_date end_date selected_regions w = Ok (g, w')
    ∧ cache_sound w'
    ∧ length (Globals.df g) = 200%nat
    ∧ Globals.filtered_df g
      = filter (included start_date end_date selected_regions)
          (Globals.df g)
    ∧ Globals.total_sales g = total_sales (Globals.filtered_df g)
    ∧ Globals.avg_daily_sales g = avg_daily_sales (Globals.filtered_df g)
    ∧ Globals.num_transactions g
      = num_transactions (Globals.filtered_df g)
    ∧ Globals.daily_sales_trend g
      = daily_sales_trend (Globals.filtered_df g)
    ∧ Globals.sales_by_region g = sales_by_region (Globals.filtered_df g).
Proof.
  intros Hw.
  destruct (script_returns start_date end_date selected_regions w Hw)
    as (g & w' & Hrun & Hw' & Hlen & Hview).
  exists g, w'. split; [done|]. split; [done|]. split; [done|].
  split; [done|]. revert Hrun. unfold script.
  destruct (cache_data generate_sales_data 200 w) as [[data w1]|e]; [|done].
  unfold rerun. rewrite filtered_df_returns. cbn [mbind result_bind].
  by intros [= <- <-].
Qed.

Lemma script_never_raises_witness :
  cache_sound (fresh_world (G:=lcg) 42) ∧
  ∃ g w',
    script (H:=lcg) (Timestamp_ymd 2024 2 1) (Timestamp_ymd 2024 3 1)
      ["North"; "West"]%string (fresh_world (G:=lcg) 42) = Ok (g, w')
    ∧ cache_sound w'
    ∧ length (Globals.df g) = 200%nat
    ∧ Globals.filtered_df g
      = filter (included (Timestamp_ymd 2024 2 1) (Timestamp_ymd 2024 3 1)
                  ["North"; "West"]%string)
          (Globals.df g)
    ∧ Globals.total_sales g = total_sales (Globals.filtered_df g)
    ∧ Globals.avg_daily_sales g = avg_daily_sales (Globals.filtered_df g)
    ∧ Globals.num_transactions g
      = num_transactions (Globals.filtered_df g)
    ∧ Globals.daily_sales_trend g
      = daily_sales_trend (Globals.filtered_df g)
    ∧ Globals.sales_by_region g = sales_by_region (Globals.filtered_df g).
Proof.
  split; [apply cache_sound_fresh|].
  apply (script_never_raises (G:=lcg) (Timestamp_ymd 2024 2 1)
           (Timestamp_ymd 2024 3 1) ["North"; "West"]%string
           (fresh_world (G:=lcg) 42)).
  apply cache_sound_fresh.
Defined.

(** X5: the frame is generated once.  From a state whose cache holds
    results of the generator only the script returns, and a run from the
    state it left works on the same frame, whatever the widgets return
    then; with the same widget values it gives every name of the script the
    same value again and leaves the state as it is. *)
Theorem script_rerun_stable `{G : BitGenerator}
    (start_date end_date start_date' end_date' : Timestamp)
    (selected_regions selected_regions' : list string) (w : World) :
  cache_sound w →
  ∃ g w',
    script start_date end_date selected_regions w = Ok (g, w')
    ∧ script start_date end_date selected_regions w' = Ok (g, w')
    ∧ ∃ g', script start_date' end_date' selected_regions' w' = Ok (g', w')
            ∧ Globals.df g' = Globals.df g.
Proof.
  intros Hw.
  destruct (script_returns start_date end_date selected_regions w Hw)
    as (g & w' & Hrun & _).
  exists g, w'. split; [done|]. split.
  - exact (script_again _ _ _ _ _ _ Hrun).
  - exact (script_same_frame _ _ _ _ _ _ _ _ _ Hrun).
Qed.

Lemma script_rerun_stable_witness :
  cache_sound (fresh_world (G:=lcg) 42) ∧
  ∃ g w',
    script (H:=lcg) (Timestamp_ymd 2024 2 1) (Timestamp_ymd 2024 3 1)
      ["North"; "West"]%string (fresh_world (G:=lcg) 42) = Ok (g, w')
    ∧ script (Timestamp_ymd 2024 2 1) (Timestamp_ymd 2024 3 1)
        ["North"; "West"]%string w' = Ok (g, w')
    ∧ ∃ g', script (Timestamp_ymd 2024 1 1) (Timestamp_ymd 2024 1 9)
              ["East"]%string w' = Ok (g', w')
            ∧ Globals.df g' = Globals.df g.
Proof.
  split; [apply cache_sound_fresh|].
  apply (script_rerun_stable (G:=lcg) (Timestamp_ymd 2024 2 1)
           (Timestamp_ymd 2024 3 1) (Timestamp_ymd 2024 1 1)
           (Timestamp_ymd 2024 1 9) ["North"; "West"]%string
           ["East"]%string (fresh_world (G:=lcg) 42)).
  apply cache_sound_fresh.
Defined.

(** ** The filter, applied again and with other criteria *)

(** X6: filtering a view again with the criteria that produced it returns
    the view. *)
Theorem filtered_df_idempotent (df view : DataFrame)
    (start_date end_date : Timestamp) (selected_regions : list string) :
  filtered_df df start_date end_date selected_regions = Ok view →
  filtered_df view start_date end_date selected_regions = Ok view.
Proof.
  rewrite !filtered_df_returns. intros [= <-]. f_equal.
  by apply list_filter_filter_l.
Qed.

Lemma filtered_df_idempotent_witness :
  ∃ view,
    filtered_df two_on_one_day (Timestamp_ymd 2024 1 2)
      (Timestamp_ymd 2024 1 3) ["East"; "West"]%string = Ok view
    ∧ filtered_df view (Timestamp_ymd 2024 1 2) (Timestamp_ymd 2024 1 3)
        ["East"; "West"]%string = Ok view.
Proof.
  eexists. split; [reflexivity|].
  apply (filtered_df_idempotent two_on_one_day). reflexivity.
Defined.

(** X7: narrowing a view further is filtering the frame once with both
    criteria joined: the later of the two starts, the earlier of the two
    ends, and the regions selected both times. *)
Theorem filtered_df_compose (df view : DataFrame)
    (start_date end_date start_date' end_date' : Timestamp)
    (selected_regions selected_regions' : list string) :
  filtered_df df start_date end_date selected_regions = Ok view →
  filtered_df view start_date' end_date' selected_regions'
  = filtered_df df (Z.max start_date start_date')
      (Z.min end_date end_date')
      (filter (λ x, x ∈ selected_regions') selected_regions).
Proof.
  rewrite !filtered_df_returns. intros [= <-]. f_equal.
  rewrite list_filter_filter. apply list_filter_iff. intros r.
  unfold included. rewrite list_elem_of_filter. intuition lia.
Qed.

Lemma filtered_df_compose_witness :
  ∃ view,
    filtered_df five_days (Timestamp_ymd 2024 1 2) (Timestamp_ymd 2024 1 5)
      ["North"; "West"]%string = Ok view
    ∧ filtered_df view (Timestamp_ymd 2024 1 1) (Timestamp_ymd 2024 1 3)
        ["North"; "East"]%string
      = filtered_df five_days
          (Z.max (Timestamp_ymd 2024 1 2) (Timestamp_ymd 2024 1 1))
          (Z.min (Timestamp_ymd 2024 1 5) (Timestamp_ymd 2024 1 3))
          (filter (λ x, x ∈ ["North"; "East"]%string)
             ["North"; "West"]%string).
Proof.
  eexists. split; [reflexivity|].
  apply (filtered_df_compose five_days). reflexivity.
Defined.

(** X8: widening the criteria never loses a record: with an earlier start,
    a later end and more regions selected, the former view is a subsequence
    of the new one, which has at least as many records. *)
Theorem filtered_df_monotone (df view view' : DataFrame)
    (start_date end_date start_date' end_date' : Timestamp)
    (selected_regions selected_regions' : list string) :
  start_date' ≤ start_date → end_date ≤ end_date' →
  selected_regions ⊆ selected_regions' →
  filtered_df df start_date end_date selected_regions = Ok view →
  filtered_df df start_date' end_date' selected_regions' = Ok view' →
  view `sublist_of` view'
  ∧ num_transactions view ≤ num_transactions view'.
Proof.
  intros Hstart Hend Hsel. rewrite !filtered_df_returns.
  intros [= <-] [= <-].
  assert (filter (included start_date end_date selected_regions) df
          `sublist_of`
          filter (included start_date' end_date' selected_regions') df)
    as Hsub.
  { rewrite <-(list_filter_filter_l
                 (included start_date end_date selected_regions)
                 (included start_date' end_date' selected_regions')).
    - apply sublist_filter.
    - intros r [Hdate Hregion]. split; [lia | by apply Hsel]. }
  split; [done|]. unfold num_transactions.
  apply sublist_length in Hsub. lia.
Qed.

Lemma filtered_df_monotone_witness :
  ∃ view view',
    Timestamp_ymd 2024 1 1 ≤ Timestamp_ymd 2024 1 2
    ∧ Timestamp_ymd 2024 1 3 ≤ Timestamp_ymd 2024 1 5
    ∧ ["North"]%string ⊆ ["North"; "West"]%string
    ∧ filtered_df five_days (Timestamp_ymd 2024 1 2) (Timestamp_ymd 2024 1 3)
        ["North"]%string = Ok view
    ∧ filtered_df five_days (Timestamp_ymd 2024 1 1) (Timestamp_ymd 2024 1 5)
        ["North"; "West"]%string = Ok view'
    ∧ view `sublist_of` view'
    ∧ num_transactions view ≤ num_transactions view'.
Proof.
  assert (Timestamp_ymd 2024 1 1 ≤ Timestamp_ymd 2024 1 2) as H1
    by (vm_compute; discriminate).
  assert (Timestamp_ymd 2024 1 3 ≤ Timestamp_ymd 2024 1 5) as H2
    by (vm_compute; discriminate).
  assert (["North"]%string ⊆ ["North"; "West"]%string) as H3.
  { intros x Hx. apply list_elem_of_singleton in Hx as ->. left. }
  eexists _, _. split; [exact H1|]. split; [exact H2|]. split; [exact H3|].
  split; [reflexivity|]. split; [reflexivity|].
  apply (filtered_df_monotone five_days _ _ _ _ _ _ _ _ H1 H2 H3);
    reflexivity.
Defined.

(** ** The bars and the points of the charts *)

(** X9: the bar of a region in the chart by region shows what the total
    sales metric would show with that region alone selected, on the same
    date range; and there is such a record. *)
Theorem sales_by_region_bar (df view : DataFrame)
    (start_date end_date : Timestamp) (selected_regions : list string)
    (x : string) (v : Z) :
  filtered_df df start_date end_date selected_regions = Ok view →
  (x, v) ∈ sales_by_region view →
  ∃ view_x,
    filtered_df df start_date end_date [x] = Ok view_x
    ∧ view_x ≠ []
    ∧ v = total_sales view_x.
Proof.
  rewrite !filtered_df_returns. intros [= <-] Hbar.
  apply elem_of_groupby_sum in Hbar as [(r & Hr & Hx) ->].
  apply list_elem_of_filter in Hr as [[Hdate Hsel] Hr].
  assert (filter (λ r, Region r = x)
            (filter (included start_date end_date selected_regions) df)
          = filter (included start_date end_date [x]) df) as Heq.
  { rewrite list_filter_filter. apply list_filter_iff. intros r'.
    unfold included. rewrite list_elem_of_singleton. split.
    - intros (Hr' & ? & _). done.
    - intros (? & Hr'). rewrite Hr', <-Hx. done. }
  eexists. split; [done|]. split.
  - intros Hnil.
    apply (filter_nil_not_elem_of (included start_date end_date [x]) df r)
      in Hnil; [done|].
    split; [done|]. by apply list_elem_of_singleton.
  - unfold total_sales. by rewrite Heq.
Qed.

Lemma sales_by_region_bar_witness :
  ∃ view,
    filtered_df two_on_one_day (Timestamp_ymd 2024 1 1)
      (Timestamp_ymd 2024 1 2) ["East"; "West"]%string = Ok view
    ∧ ("East"%string, 50) ∈ sales_by_region view
    ∧ ∃ view_x,
        filtered_df two_on_one_day (Timestamp_ymd 2024 1 1)
          (Timestamp_ymd 2024 1 2) ["East"%string] = Ok view_x
        ∧ view_x ≠ []
        ∧ 50 = total_sales view_x.
Proof.
  assert (("East"%string, 50) ∈ sales_by_region two_on_one_day) as Hbar
    by (vm_compute; left).
  eexists. split; [reflexivity|]. split; [exact Hbar|].
  apply (sales_by_region_bar two_on_one_day two_on_one_day
           (Timestamp_ymd 2024 1 1) (Timestamp_ymd 2024 1 2)
           ["East"; "West"]%string); [reflexivity | exact Hbar].
Defined.

(** X10: the point of a date in the chart over time shows what the total
    sales metric would show with the date range narrowed to that one
    timestamp, on the same regions; and there is such a record. *)
Theorem daily_sales_trend_point (df view : DataFrame)
    (start_date end_date : Timestamp) (selected_regions : list string)
    (t : Timestamp) (v : Z) :
  filtered_df df start_date end_date selected_regions = Ok view →
  (t, v) ∈ daily_sales_trend view →
  ∃ view_t,
    filtered_df df t t selected_regions = Ok view_t
    ∧ view_t ≠ []
    ∧ v = total_sales view_t.
Proof.
  rewrite !filtered_df_returns. intros [= <-] Hpoint.
  apply elem_of_groupby_sum in Hpoint as [(r & Hr & Ht) ->].
  apply list_elem_of_filter in Hr as [[Hdate Hsel] Hr].
  assert (filter (λ r, Date r = t)
            (filter (included start_date end_date selected_regions) df)
          = filter (included t t selected_regions) df) as Heq.
  { rewrite list_filter_filter. apply list_filter_iff. intros r'.
    unfold included. split.
    - intros (-> & _ & ?). split; [lia | done].
    - intros (? & ?). assert (Date r' = t) as -> by lia.
      split; [done|]. split; [lia | done]. }
  eexists. split; [done|]. split.
  - intros Hnil.
    apply (filter_nil_not_elem_of (included t t selected_regions) df r)
      in Hnil; [done|].
    split; [lia | done].
  - unfold total_sales. by rewrite Heq.
Qed.

Lemma daily_sales_trend_point_witness :
  ∃ view,
    filtered_df two_on_one_day (Timestamp_ymd 2024 1 1)
      (Timestamp_ymd 2024 1 2) ["East"; "West"]%string = Ok view
    ∧ (Timestamp_ymd 2024 1 2, 40) ∈ daily_sales_trend view
    ∧ ∃ view_t,
        filtered_df two_on_one_day (Timestamp_ymd 2024 1 2)
          (Timestamp_ymd 2024 1 2) ["East"; "West"]%string = Ok view_t
        ∧ view_t ≠ []
        ∧ 40 = total_sales view_t.
Proof.
  assert ((Timestamp_ymd 2024 1 2, 40) ∈ daily_sales_trend two_on_one_day)
    as Hpoint by (vm_compute; right; left).
  eexists. split; [reflexivity|]. split; [exact Hpoint|].
  apply (daily_sales_trend_point two_on_one_day two_on_one_day
           (Timestamp_ymd 2024 1 1) (Timestamp_ymd 2024 1 2)
           ["East"; "West"]%string); [reflexivity | exact Hpoint].
Defined.

(** ** The metrics and the order of the rows *)

(** X11: the metrics and the frame grouped by date do not depend on the
    order of the rows of the view. *)
Theorem metrics_Permutation (view view' : DataFrame) :
  view ≡ₚ view' →
  total_sales view = total_sales view'
  ∧ num_transactions view = num_transactions view'
  ∧ avg_daily_sales view = avg_daily_sales view'
  ∧ daily_sales_trend view = daily_sales_trend view'.
Proof.
  intros Hview.
  assert (groupby_sum Z.le Date view = groupby_sum Z.le Date view') as Hgroup
    by (apply groupby_sum_Permutation; [apply _..|done]).
  split; [|split; [|split]].
  - unfold total_sales. by rewrite Hview.
  - unfold num_transactions. by rewrite Hview.
  - unfold avg_daily_sales. by rewrite Hgroup.
  - done.
Qed.

Lemma metrics_Permutation_witness :
  two_on_one_day ≡ₚ reverse two_on_one_day
  ∧ total_sales two_on_one_day = total_sales (reverse two_on_one_day)
  ∧ num_transactions two_on_one_day
    = num_transactions (reverse two_on_one_day)
  ∧ avg_daily_sales two_on_one_day
    = avg_daily_sales (reverse two_on_one_day)
  ∧ daily_sales_trend two_on_one_day
    = daily_sales_trend (reverse two_on_one_day).
Proof.
  assert (two_on_one_day ≡ₚ reverse two_on_one_day) as Hperm
    by (symmetry; apply reverse_Permutation).
  split; [exact Hperm|].
  apply (metrics_Permutation two_on_one_day (reverse two_on_one_day)).
  exact Hperm.
Defined.

(** X12: the average daily sales are [NaN] on the empty view and on no
    other. *)
Theorem avg_daily_sales_NaN_iff (view : DataFrame) :
  avg_daily_sales view = NaN ↔ view = [].
Proof.
  split; [|by intros ->].
  destruct view as [|r view]; [done|]. unfold avg_daily_sales.
  rewrite series_mean_nonempty; [done|].
  intros Hnil. apply (f_equal length) in Hnil.
  rewrite length_fmap, length_groupby_sum in Hnil. done.
Qed.

(** ** Views of generated frames, continued *)

Lemma StronglySorted_lookup_lt (l : list Z) :
  (∀ (i j : nat) x y, (i < j)%nat → l !! i = Some x → l !! j = Some y →
     x < y) →
  StronglySorted Z.lt l.
Proof.
  induction l as [|x l IH]; intros Hl; [constructor|]. constructor.
  - apply IH. intros i j y z Hij Hi Hj. by apply (Hl (S i) (S j)); [lia|..].
  - apply Forall_forall. intros y Hy.
    apply list_elem_of_lookup in Hy as [j Hj].
    by apply (Hl 0%nat (S j)); [lia|..].
Qed.

Lemma StronglySorted_sublist {A} (R : relation A) (l1 l2 : list A) :
  l1 `sublist_of` l2 → StronglySorted R l2 → StronglySorted R l1.
Proof.
  induction 1 as [|x l1 l2 Hsub IH|x l1 l2 Hsub IH]; intros Hl2.
  - constructor.
  - apply StronglySorted_cons in Hl2 as [Hx Hl2]. constructor; [auto|].
    apply Forall_forall. intros y Hy. rewrite Forall_forall in Hx.
    apply Hx. by eapply elem_of_sublist.
  - apply StronglySorted_cons in Hl2 as [_ Hl2]. auto.
Qed.

Lemma StronglySorted_lt_le (l : list Z) :
  StronglySorted Z.lt l → StronglySorted Z.le l.
Proof.
  induction 1 as [|x l Hl IH Hx]; constructor; [done|].
  eapply Forall_impl; [exact Hx|]. simpl. lia.
Qed.

Lemma StronglySorted_lt_NoDup (l : list Z) :
  StronglySorted Z.lt l → NoDup l.
Proof.
  induction 1 as [|x l Hl IH Hx]; constructor; [|done].
  intros Hin. rewrite Forall_forall in Hx. specialize (Hx x Hin). lia.
Qed.

(** What every view of a generated frame inherits from it. *)
Lemma generated_view_rows `{G : BitGenerator} num_days s data s' view :
  generate_sales_data num_days s = Ok (data, s') →
  view `sublist_of` data →
  StronglySorted Z.lt (Index <$> view)
  ∧ Forall (λ r, 0 ≤ Index r < num_days
                 ∧ Date r
                   = Timestamp_of_day (days_from_civil 2024 1 1 + Index r)
                 ∧ 100 ≤ Sales r < 1000
                 ∧ Region r ∈ region_names) view.
Proof.
  intros Hgen Hview.
  pose proof (generate_sales_data_Ok_range _ _ _ _ Hgen) as Hpos.
  destruct (generate_sales_data_returns num_days s Hpos)
    as (data0 & s0 & Hgen0 & Hlen & Hrows).
  rewrite Hgen in Hgen0. injection Hgen0 as <- <-. split.
  - apply (StronglySorted_sublist _ _ (Index <$> data));
      [by apply fmap_sublist|].
    apply StronglySorted_lookup_lt. intros i j x y Hij.
    rewrite !list_lookup_fmap.
    destruct (data !! i) as [ri|] eqn:Hi; [|done].
    destruct (data !! j) as [rj|] eqn:Hj; [|done].
    apply Hrows in Hi as (Hi & _). apply Hrows in Hj as (Hj & _).
    simpl. intros [= <-] [= <-]. lia.
  - apply Forall_forall. intros r Hr.
    apply (elem_of_sublist _ _ _ Hr) in Hview.
    apply list_elem_of_lookup in Hview as [i Hi].
    pose proof (lookup_lt_Some _ _ _ Hi) as Hlt.
    apply Hrows in Hi as (-> & -> & ? & ?). split; [lia|]. done.
Qed.

Lemma generated_view_dates_sorted `{G : BitGenerator} num_days s data s'
    view :
  generate_sales_data num_days s = Ok (data, s') →
  view `sublist_of` data →
  StronglySorted Z.lt (Date <$> view).
Proof.
  intros Hgen Hview.
  destruct (generated_view_rows _ _ _ _ _ Hgen Hview) as [Hsorted Hrows].
  clear Hgen Hview. induction view as [|r view IH]; [constructor|].
  rewrite fmap_cons in Hsorted |- *.
  apply StronglySorted_cons in Hsorted as [Hr Hsorted].
  apply Forall_cons in Hrows as [(_ & Hdate & _) Hrows].
  constructor; [by apply IH|].
  apply Forall_fmap, Forall_forall. intros r' Hr'. simpl.
  rewrite Forall_forall in Hrows. destruct (Hrows r' Hr') as (_ & -> & _).
  rewrite Hdate. rewrite Forall_fmap, Forall_forall in Hr.
  specialize (Hr r' Hr'). simpl in Hr.
  unfold Timestamp_of_day. pose proof ns_per_day_pos. nia.
Qed.

Lemma filter_eq_NoDup_fmap {A B} `{EqDecision B} (f : A → B) (l : list A)
    (x : A) :
  NoDup (f <$> l) → x ∈ l → filter (λ y, f y = f x) l = [x].
Proof.
  induction l as [|y l IH]; intros Hnd Hx.
  { by apply not_elem_of_nil in Hx. }
  rewrite fmap_cons in Hnd. apply NoDup_cons in Hnd as [Hy Hnd].
  rewrite filter_cons. apply elem_of_cons in Hx as [->|Hx].
  - rewrite decide_True by done. f_equal. apply filter_none.
    intros z Hz Hfz. apply Hy. rewrite <-Hfz. by apply list_elem_of_fmap_2.
  - rewrite decide_False; [by apply IH|].
    intros Hfy. apply Hy. rewrite Hfy. by apply list_elem_of_fmap_2.
Qed.

(** On a view with one record per timestamp, in ascending order, grouping
    by date changes nothing. *)
Lemma daily_sales_trend_sorted (view : DataFrame) :
  StronglySorted Z.lt (Date <$> view) →
  daily_sales_trend view = (λ r, (Date r, Sales r)) <$> view.
Proof.
  intros Hsorted. pose proof (StronglySorted_lt_NoDup _ Hsorted) as Hnd.
  unfold daily_sales_trend, groupby_sum.
  assert (group_keys Z.le Date view = Date <$> view) as ->.
  { apply (StronglySorted_unique Z.le).
    - apply StronglySorted_group_keys; apply _.
    - by apply StronglySorted_lt_le.
    - by rewrite group_keys_Permutation, unique_NoDup. }
  rewrite <-list_fmap_compose. apply list_fmap_ext. intros i r Hi. simpl.
  f_equal. rewrite (filter_eq_NoDup_fmap Date view r);
    [simpl; lia | done | by eapply list_elem_of_lookup_2].
Qed.

(** X13: on a view of a generated frame the chart over time plots the
    records of the view themselves: the frame grouped by date is the Date
    and Sales columns of the view, row by row. *)
Theorem generated_view_daily_sales_trend `{G : BitGenerator}
    (num_days : Z) (s s' : rng_state) (data view : DataFrame)
    (start_date end_date : Timestamp) (selected_regions : list string) :
  generate_sales_data num_days s = Ok (data, s') →
  filtered_df data start_date end_date selected_regions = Ok view →
  daily_sales_trend view = (λ r, (Date r, Sales r)) <$> view.
Proof.
  intros Hgen. rewrite filtered_df_returns. intros [= <-].
  apply daily_sales_trend_sorted.
  eapply generated_view_dates_sorted; [exact Hgen|]. apply sublist_filter.
Qed.

Lemma generated_view_daily_sales_trend_witness :
  ∃ data s' view,
    generate_sales_data (G:=lcg) 5 42 = Ok (data, s')
    ∧ filtered_df data (Timestamp_ymd 2024 1 2) (Timestamp_ymd 2024 1 4)
        ["North"; "East"; "West"]%string = Ok view
    ∧ daily_sales_trend view = (λ r, (Date r, Sales r)) <$> view.
Proof.
  eexists _, _, _. split; [reflexivity|]. split; [reflexivity|].
  eapply (generated_view_daily_sales_trend (G:=lcg) 5 42 _ _ _
            (Timestamp_ymd 2024 1 2) (Timestamp_ymd 2024 1 4)
            ["North"; "East"; "West"]%string); reflexivity.
Defined.

Lemma series_sum_between (a b : Z) (l : list Z) :
  Forall (λ x, a ≤ x ≤ b) l →
  a * Z.of_nat (length l) ≤ series_sum l ≤ b * Z.of_nat (length l).
Proof.
  induction 1 as [|x l Hx Hl IH]; [simpl; lia|].
  rewrite series_sum_cons. cbn [length]. lia.
Qed.

Lemma generated_view_sales `{G : BitGenerator} num_days s data s' view :
  generate_sales_data num_days s = Ok (data, s') →
  view `sublist_of` data →
  Forall (λ x, 100 ≤ x ≤ 999) (Sales <$> view).
Proof.
  intros Hgen Hview.
  destruct (generated_view_rows _ _ _ _ _ Hgen Hview) as [_ Hrows].
  apply Forall_fmap. eapply Forall_impl; [exact Hrows|].
  simpl. intros r. lia.
Qed.

(** X14: on a view of a generated frame the chart by region has at most
    four bars, each for one of the four region names and each at least 100
    high. *)
Theorem generated_view_sales_by_region `{G : BitGenerator}
    (num_days : Z) (s s' : rng_state) (data view : DataFrame)
    (start_date end_date : Timestamp) (selected_regions : list string) :
  generate_sales_data num_days s = Ok (data, s') →
  filtered_df data start_date end_date selected_regions = Ok view →
  (length (sales_by_region view) ≤ 4)%nat
  ∧ ∀ x v, (x, v) ∈ sales_by_region view →
      x ∈ region_names ∧ x ∈ selected_regions ∧ 100 ≤ v.
Proof.
  intros Hgen. rewrite filtered_df_returns. intros [= <-].
  set (view := filter _ data).
  assert (view `sublist_of` data) as Hview by apply sublist_filter.
  destruct (generated_view_rows _ _ _ _ _ Hgen Hview) as [_ Hrows].
  rewrite Forall_forall in Hrows.
  assert (∀ x, x ∈ (sales_by_region view).*1 → x ∈ region_names)
    as Hnames.
  { intros x Hx. apply sales_by_region_keys in Hx.
    apply list_elem_of_fmap in Hx as (r & -> & Hr).
    by apply Hrows in Hr as (_ & _ & _ & ?). }
  split.
  - rewrite <-(length_fmap fst).
    change 4%nat with (length region_names).
    apply submseteq_length, NoDup_submseteq; [|done].
    unfold sales_by_region. rewrite groupby_sum_keys.
    apply NoDup_group_keys.
  - intros x v Hbar. split; [|split].
    + apply Hnames. apply list_elem_of_fmap. by exists (x, v).
    + apply elem_of_groupby_sum in Hbar as [(r & Hr & <-) _].
      apply list_elem_of_filter in Hr as [[_ ?] _]. done.
    + apply elem_of_groupby_sum in Hbar as [(r & Hr & Hx) ->].
      set (group := filter (λ r, Region r = x) view).
      assert (r ∈ group) as Hgroup by by apply list_elem_of_filter.
      assert (Forall (λ x, 100 ≤ x ≤ 999) (Sales <$> group)) as Hsales.
      { apply (generated_view_sales _ _ _ _ _ Hgen).
        etrans; [apply sublist_filter | exact Hview]. }
      apply series_sum_between in Hsales. rewrite length_fmap in Hsales.
      destruct group; [by apply not_elem_of_nil in Hgroup|].
      cbn [length] in Hsales. lia.
Qed.

Lemma generated_view_sales_by_region_witness :
  ∃ data s' view,
    generate_sales_data (G:=lcg) 5 42 = Ok (data, s')
    ∧ filtered_df data (Timestamp_ymd 2024 1 2) (Timestamp_ymd 2024 1 4)
        ["North"; "East"; "West"]%string = Ok view
    ∧ (length (sales_by_region view) ≤ 4)%nat
    ∧ ∀ x v, (x, v) ∈ sales_by_region view →
        x ∈ region_names ∧ x ∈ ["North"; "East"; "West"]%string ∧ 100 ≤ v.
Proof.
  eexists _, _, _. split; [reflexivity|]. split; [reflexivity|].
  eapply (generated_view_sales_by_region (G:=lcg) 5 42 _ _ _
            (Timestamp_ymd 2024 1 2) (Timestamp_ymd 2024 1 4)
            ["North"; "East"; "West"]%string); reflexivity.
Defined.

Lemma avg_daily_sales_one_per_date (view : DataFrame) :
  NoDup (Date <$> view) → view ≠ [] →
  avg_daily_sales view
  = Float (inject_Z (total_sales view) / inject_Z (num_transactions view)).
Proof.
  intros Hnd Hne. unfold avg_daily_sales, total_sales, num_transactions.
  pose proof (length_daily_sales_trend_NoDup view Hnd) as Hlen.
  unfold daily_sales_trend in Hlen. rewrite series_mean_nonempty.
  - by rewrite groupby_sum_total, length_fmap, Hlen.
  - intros Hnil. apply (f_equal length) in Hnil.
    rewrite length_fmap, Hlen in Hnil. by destruct view.
Qed.

Lemma Qle_div_bounds (a b t : Z) (n : nat) :
  a * Z.of_nat (S n) ≤ t ≤ b * Z.of_nat (S n) →
  (inject_Z a <= inject_Z t / inject_Z (Z.of_nat (S n)))%Q
  ∧ (inject_Z t / inject_Z (Z.of_nat (S n)) <= inject_Z b)%Q.
Proof.
  intros Ht.
  assert (0 < inject_Z (Z.of_nat (S n)))%Q as Hpos.
  { unfold Qlt. simpl. lia. }
  split.
  - apply Qle_shift_div_l; [done|]. rewrite <-inject_Z_mult.
    rewrite <-Zle_Qle. lia.
  - apply Qle_shift_div_r; [done|]. rewrite <-inject_Z_mult.
    rewrite <-Zle_Qle. lia.
Qed.

(** X15: on a view of a generated frame the total sales lie between 100
    and 999 times the number of records, and on a view that is not empty
    the average daily sales are a number between 100 and 999. *)
Theorem generated_view_metrics_bounds `{G : BitGenerator}
    (num_days : Z) (s s' : rng_state) (data view : DataFrame)
    (start_date end_date : Timestamp) (selected_regions : list string) :
  generate_sales_data num_days s = Ok (data, s') →
  filtered_df data start_date end_date selected_regions = Ok view →
  100 * num_transactions view ≤ total_sales view
    ≤ 999 * num_transactions view
  ∧ (view ≠ [] →
     ∃ q, avg_daily_sales view = Float q
          ∧ (inject_Z 100 <= q)%Q ∧ (q <= inject_Z 999)%Q).
Proof.
  intros Hgen. rewrite filtered_df_returns. intros [= <-].
  set (view := filter _ data).
  assert (view `sublist_of` data) as Hview by apply sublist_filter.
  pose proof (generated_view_sales _ _ _ _ _ Hgen Hview) as Hsales.
  apply series_sum_between in Hsales. rewrite length_fmap in Hsales.
  split; [done|]. intros Hne. eexists. split.
  - apply avg_daily_sales_one_per_date; [|done].
    apply StronglySorted_lt_NoDup.
    by eapply generated_view_dates_sorted.
  - unfold num_transactions, total_sales.
    destruct view as [|r view']; [done|]. cbn [length] in *.
    by apply Qle_div_bounds.
Qed.

Lemma generated_view_metrics_bounds_witness :
  ∃ data s' view,
    generate_sales_data (G:=lcg) 5 42 = Ok (data, s')
    ∧ filtered_df data (Timestamp_ymd 2024 1 2) (Timestamp_ymd 2024 1 4)
        ["North"; "East"; "West"]%string = Ok view
    ∧ 100 * num_transactions view ≤ total_sales view
        ≤ 999 * num_transactions view
    ∧ (view ≠ [] →
       ∃ q, avg_daily_sales view = Float q
            ∧ (inject_Z 100 <= q)%Q ∧ (q <= inject_Z 999)%Q).
Proof.
  eexists _, _, _. split; [reflexivity|]. split; [reflexivity|].
  eapply (generated_view_metrics_bounds (G:=lcg) 5 42 _ _ _
            (Timestamp_ymd 2024 1 2) (Timestamp_ymd 2024 1 4)
            ["North"; "East"; "West"]%string); reflexivity.
Defined.

(** X16: a view of a generated frame keeps the index labels of the frame:
    the label of a record is the number of days from 2024-01-01 to its
    date, the labels ascend strictly down the view, and each lies from 0 up
    to the day count. *)
Theorem generated_view_index `{G : BitGenerator}
    (num_days : Z) (s s' : rng_state) (data view : DataFrame)
    (start_date end_date : Timestamp) (selected_regions : list string) :
  generate_sales_data num_days s = Ok (data, s') →
  filtered_df data start_date end_date selected_regions = Ok view →
  StronglySorted Z.lt (Index <$> view)
  ∧ ∀ r, r ∈ view →
      0 ≤ Index r < num_days
      ∧ calendar_date (Date r) = days_from_civil 2024 1 1 + Index r
      ∧ normalized (Date r).
Proof.
  intros Hgen. rewrite filtered_df_returns. intros [= <-].
  destruct (generated_view_rows _ _ _ _
              (filter (included start_date end_date selected_regions) data)
              Hgen (sublist_filter _ _)) as [Hsorted Hrows].
  split; [done|]. intros r Hr. rewrite Forall_forall in Hrows.
  destruct (Hrows r Hr) as (? & -> & _). split; [done|].
  split; [apply calendar_date_of_day | apply normalized_of_day].
Qed.

Lemma generated_view_index_witness :
  ∃ data s' view,
    generate_sales_data (G:=lcg) 5 42 = Ok (data, s')
    ∧ filtered_df data (Timestamp_ymd 2024 1 2) (Timestamp_ymd 2024 1 4)
        ["North"; "East"; "West"]%string = Ok view
    ∧ StronglySorted Z.lt (Index <$> view)
    ∧ ∀ r, r ∈ view →
        0 ≤ Index r < 5
        ∧ calendar_date (Date r) = days_from_civil 2024 1 1 + Index r
        ∧ normalized (Date r).
Proof.
  eexists _, _, _. split; [reflexivity|]. split; [reflexivity|].
  eapply (generated_view_index (G:=lcg) 5 42 _ _ _
            (Timestamp_ymd 2024 1 2) (Timestamp_ymd 2024 1 4)
            ["North"; "East"; "West"]%string); reflexivity.
Defined.

Lemma filter_fmap_length {A B} (f : A → B) (Q : B → Prop)
    `{∀ y, Decision (Q y)} (l : list A) :
  length (filter (λ x, Q (f x)) l) = length (filter Q (f <$> l)).
Proof.
  induction l as [|x l IH]; [done|].
  rewrite fmap_cons, !filter_cons.
  destruct (decide (Q (f x))); simpl; by rewrite IH.
Qed.

Lemma count_in_range (a b : Z) (m : nat) :
  Z.of_nat (length (filter (λ k, a ≤ k ≤ b) (Z.of_nat <$> seq 0 m)))
  = Z.max 0 (Z.min (b + 1) (Z.of_nat m) - Z.max a 0).
Proof.
  induction m as [|m IH]; [simpl; lia|].
  rewrite seq_S, fmap_app, filter_app, length_app, Nat2Z.inj_add, IH.
  simpl. rewrite filter_cons, filter_nil.
  destruct (decide (a ≤ Z.of_nat m ≤ b)); simpl; lia.
Qed.

Lemma generated_index_seq `{G : BitGenerator} num_days s data s' :
  generate_sales_data num_days s = Ok (data, s') →
  Index <$> data = Z.of_nat <$> seq 0 (Z.to_nat num_days).
Proof.
  intros Hgen.
  pose proof (generate_sales_data_Ok_range _ _ _ _ Hgen) as Hpos.
  destruct (generate_sales_data_returns num_days s Hpos)
    as (data0 & s0 & Hgen0 & Hlen & Hrows).
  rewrite Hgen in Hgen0. injection Hgen0 as <- <-.
  apply list_eq. intros i. rewrite !list_lookup_fmap.
  destruct (data !! i) as [r|] eqn:Hi.
  - pose proof (lookup_lt_Some _ _ _ Hi) as Hlt.
    apply Hrows in Hi as (HI & _). simpl. rewrite HI.
    rewrite lookup_seq_lt by lia. done.
  - apply lookup_ge_None in Hi. rewrite lookup_seq_ge by lia. done.
Qed.

(** X17: on a generated frame, with every region name selected and the
    range set from the midnight of one day to the midnight of another, the
    number of transactions is the number of days of the frame in that
    range: the days from [a] to [b] after 2024-01-01 that lie from 0 up to
    the day count. *)
Theorem generated_view_count_days `{G : BitGenerator}
    (num_days : Z) (s s' : rng_state) (data view : DataFrame) (a b : Z)
    (selected_regions : list string) :
  generate_sales_data num_days s = Ok (data, s') →
  region_names ⊆ selected_regions →
  filtered_df data
    (Timestamp_of_day (days_from_civil 2024 1 1 + a))
    (Timestamp_of_day (days_from_civil 2024 1 1 + b))
    selected_regions = Ok view →
  num_transactions view = Z.max 0 (Z.min (b + 1) num_days - Z.max a 0).
Proof.
  intros Hgen Hsel. rewrite filtered_df_returns. intros [= <-].
  destruct (generated_view_rows _ _ _ _ data Hgen ltac:(done))
    as [_ Hrows].
  rewrite Forall_forall in Hrows.
  rewrite (filter_ext_in _ (λ r, a ≤ Index r ≤ b)).
  - unfold num_transactions.
    assert (length (filter (λ r, a ≤ Index r ≤ b) data)
            = length (filter (λ k, a ≤ k ≤ b) (Index <$> data))) as ->
      by exact (filter_fmap_length Index (λ k, a ≤ k ≤ b) data).
    rewrite (generated_index_seq _ _ _ _ Hgen), count_in_range.
    pose proof (generate_sales_data_Ok_range _ _ _ _ Hgen). lia.
  - intros r Hr. destruct (Hrows r Hr) as (_ & Hdate & _ & Hregion).
    unfold included. rewrite Hdate. unfold Timestamp_of_day.
    pose proof ns_per_day_pos. split.
    + intros [? _]. nia.
    + intros ?. split; [nia | by apply Hsel].
Qed.

Lemma generated_view_count_days_witness :
  ∃ data s' view,
    generate_sales_data (G:=lcg) 5 42 = Ok (data, s')
    ∧ region_names ⊆ region_names
    ∧ filtered_df data
        (Timestamp_of_day (days_from_civil 2024 1 1 + 1))
        (Timestamp_of_day (days_from_civil 2024 1 1 + 3))
        region_names = Ok view
    ∧ num_transactions view = Z.max 0 (Z.min (3 + 1) 5 - Z.max 1 0).
Proof.
  eexists _, _, _. split; [reflexivity|]. split; [reflexivity|].
  split; [reflexivity|].
  eapply (generated_view_count_days (G:=lcg) 5 42 _ _ _ 1 3 region_names);
    reflexivity.
Defined.

(** ** The sidebar *)

(** X18: a [datetime] survives the conversion to a timestamp and back; a
    timestamp comes back from the conversion to a [datetime] less than a
    microsecond earlier, and unchanged exactly when it is a whole number of
    microseconds. *)
Theorem datetime_round_trip (t : Timestamp) (d : datetime) :
  to_pydatetime (to_datetime d) = d
  ∧ to_datetime (to_pydatetime t) ≤ t < to_datetime (to_pydatetime t) + 1000
  ∧ (to_datetime (to_pydatetime t) = t ↔ t mod 1000 = 0).
Proof.
  unfold to_pydatetime, to_datetime.
  pose proof (Z.div_mod t 1000 ltac:(lia)) as Ht.
  pose proof (Z.mod_pos_bound t 1000 ltac:(lia)) as Hmod.
  split; [apply Z.div_mul; lia|]. split; lia.
Qed.

Lemma datetime_round_trip_aligned (t : Timestamp) :
  t mod 1000 = 0 → to_datetime (to_pydatetime t) = t.
Proof.
  unfold to_pydatetime, to_datetime. intros Ht.
  pose proof (Z.div_mod t 1000 ltac:(lia)). lia.
Qed.

Lemma foldr_min_spec (t : Z) (l : list Z) :
  foldr Z.min t l ∈ t :: l ∧ Forall (λ x, foldr Z.min t l ≤ x) (t :: l).
Proof.
  induction l as [|x l [IHin IHle]]; simpl.
  { split; [left | constructor; [lia | constructor]]. }
  apply Forall_cons in IHle as [Ht Hl]. split.
  - destruct (Z.min_spec x (foldr Z.min t l)) as [[_ ->]|[_ ->]].
    + right. left.
    + apply elem_of_cons in IHin as [->|?]; [left | right; by right].
  - constructor; [lia|]. constructor; [lia|].
    eapply Forall_impl; [exact Hl|]. simpl. lia.
Qed.

Lemma foldr_max_spec (t : Z) (l : list Z) :
  foldr Z.max t l ∈ t :: l ∧ Forall (λ x, x ≤ foldr Z.max t l) (t :: l).
Proof.
  induction l as [|x l [IHin IHle]]; simpl.
  { split; [left | constructor; [lia | constructor]]. }
  apply Forall_cons in IHle as [Ht Hl]. split.
  - destruct (Z.max_spec x (foldr Z.max t l)) as [[_ ->]|[_ ->]].
    + apply elem_of_cons in IHin as [->|?]; [left | right; by right].
    + right. left.
  - constructor; [lia|]. constructor; [lia|].
    eapply Forall_impl; [exact Hl|]. simpl. lia.
Qed.

Lemma series_min_spec (s : list Timestamp) :
  s ≠ [] →
  ∃ m, series_min s = Some m ∧ m ∈ s ∧ Forall (λ t, m ≤ t) s.
Proof.
  destruct s as [|t s]; [done|]. intros _. eexists. split; [done|].
  apply foldr_min_spec.
Qed.

Lemma series_max_spec (s : list Timestamp) :
  s ≠ [] →
  ∃ m, series_max s = Some m ∧ m ∈ s ∧ Forall (λ t, t ≤ m) s.
Proof.
  destruct s as [|t s]; [done|]. intros _. eexists. split; [done|].
  apply foldr_max_spec.
Qed.

(** X19: before the user touches a widget the dashboard shows the whole
    frame: on a frame that is not empty and whose timestamps are whole
    numbers of microseconds, the view of the first run is the frame
    itself. *)
Theorem initial_run_whole_frame (df : DataFrame) :
  df ≠ [] →
  Forall (λ r, Date r mod 1000 = 0) df →
  ∃ g,
    run_on_widgets df untouched = Some (Ok g)
    ∧ Globals.filtered_df g = df
    ∧ Globals.num_transactions g = Z.of_nat (length df)
    ∧ Globals.total_sales g = series_sum (Sales <$> df).
Proof.
  intros Hne Hus.
  assert (Date <$> df ≠ []) as Hdates by by destruct df.
  destruct (series_min_spec _ Hdates) as (lo & Hlo & Hlo_in & Hlo_le).
  destruct (series_max_spec _ Hdates) as (hi & Hhi & Hhi_in & Hhi_le).
  rewrite Forall_forall in Hus.
  assert (∀ t, t ∈ Date <$> df → to_datetime (to_pydatetime t) = t)
    as Hback.
  { intros t Ht. apply list_elem_of_fmap in Ht as (r & -> & Hr).
    apply datetime_round_trip_aligned. by apply Hus. }
  unfold run_on_widgets, sidebar, min_date, max_date. rewrite Hlo, Hhi.
  simpl. rewrite (Hback lo Hlo_in), (Hback hi Hhi_in).
  assert (filter (included lo hi (all_regions df)) df = df) as Hall.
  { apply filter_all. intros r Hr. split.
    - rewrite Forall_fmap, Forall_forall in Hlo_le, Hhi_le.
      specialize (Hlo_le r Hr). specialize (Hhi_le r Hr). simpl in *. lia.
    - apply elem_of_unique. by apply list_elem_of_fmap_2. }
  unfold rerun, st_multiselect, untouched. cbn [multiselect_setting default].
  rewrite filtered_df_returns, Hall. cbn [mbind result_bind].
  eexists. split; [done|]. done.
Qed.

Lemma initial_run_whole_frame_witness :
  two_on_one_day ≠ []
  ∧ Forall (λ r, Date r mod 1000 = 0) two_on_one_day
  ∧ ∃ g,
      run_on_widgets two_on_one_day untouched = Some (Ok g)
      ∧ Globals.filtered_df g = two_on_one_day
      ∧ Globals.num_transactions g = Z.of_nat (length two_on_one_day)
      ∧ Globals.total_sales g = series_sum (Sales <$> two_on_one_day).
Proof.
  assert (two_on_one_day ≠ []) as H1 by discriminate.
  assert (Forall (λ r, Date r mod 1000 = 0) two_on_one_day) as H2
    by (repeat constructor).
  split; [exact H1|]. split; [exact H2|].
  apply (initial_run_whole_frame two_on_one_day H1 H2).
Defined.

(** X20: with every region of the frame selected, as the multiselect
    starts, the filter is the filter on the date range alone. *)
Theorem filtered_df_all_regions (df : DataFrame)
    (start_date end_date : Timestamp) :
  filtered_df df start_date end_date (all_regions df)
  = Ok (filter (λ r, start_date ≤ Date r ≤ end_date) df).
Proof.
  rewrite filtered_df_returns. f_equal. apply filter_ext_in.
  intros r Hr. unfold included. split; [by intros [? _]|].
  intros ?. split; [done|].
  apply elem_of_unique. by apply list_elem_of_fmap_2.
Qed.

(** X21: on a generated frame of at least one day the slider runs from
    2024-01-01 to the last day of the frame, and the multiselect offers
    the regions that occur in the frame, each once, all of them among the
    four region names; the sidebar then gives criteria whatever the user
    has set. *)
Theorem generated_sidebar `{G : BitGenerator}
    (num_days : Z) (s s' : rng_state) (data : DataFrame) (ui : Widgets) :
  generate_sales_data num_days s = Ok (data, s') →
  0 < num_days →
  min_date data = Some (to_pydatetime (Timestamp_ymd 2024 1 1))
  ∧ max_date data
    = Some (to_pydatetime
              (Timestamp_of_day (days_from_civil 2024 1 1 + num_days - 1)))
  ∧ NoDup (all_regions data)
  ∧ (∀ x, x ∈ all_regions data ↔ ∃ r, r ∈ data ∧ Region r = x)
  ∧ all_regions data ⊆ region_names
  ∧ (length (all_regions data) ≤ 4)%nat
  ∧ is_Some (sidebar data ui).
Proof.
  intros Hgen Hn.
  destruct (generate_sales_data_returns num_days s
              (generate_sales_data_Ok_range _ _ _ _ Hgen))
    as (data0 & s0 & Hgen0 & Hlen & Hrows).
  rewrite Hgen in Hgen0. injection Hgen0 as <- <-.
  assert (Date <$> data ≠ []) as Hdates.
  { intros Hnil. apply (f_equal length) in Hnil.
    rewrite length_fmap in Hnil. simpl in Hnil. lia. }
  destruct (series_min_spec _ Hdates) as (lo & Hlo & Hlo_in & Hlo_le).
  destruct (series_max_spec _ Hdates) as (hi & Hhi & Hhi_in & Hhi_le).
  assert (∀ t, t ∈ Date <$> data →
            ∃ i : nat, (i < Z.to_nat num_days)%nat
              ∧ t = Timestamp_of_day (days_from_civil 2024 1 1
                                       + Z.of_nat i)) as Hday.
  { intros t Ht. apply list_elem_of_fmap in Ht as (r & -> & Hr).
    apply list_elem_of_lookup in Hr as [i Hi].
    pose proof (lookup_lt_Some _ _ _ Hi) as Hlt.
    apply Hrows in Hi as (_ & -> & _). exists i. split; [lia | done]. }
  assert (∀ i : nat, (i < Z.to_nat num_days)%nat →
            Timestamp_of_day (days_from_civil 2024 1 1 + Z.of_nat i)
              ∈ Date <$> data) as Hpresent.
  { intros i Hi. destruct (lookup_lt_is_Some_2 data i) as [r Hr]; [lia|].
    pose proof (Hrows i r Hr) as (_ & <- & _).
    apply list_elem_of_fmap_2. by eapply list_elem_of_lookup_2. }
  rewrite Forall_forall in Hlo_le, Hhi_le.
  pose proof ns_per_day_pos as Hpos.
  assert (lo = Timestamp_ymd 2024 1 1) as ->.
  { destruct (Hday lo Hlo_in) as (i & Hi & ->).
    specialize (Hlo_le _ (Hpresent 0%nat ltac:(lia))).
    unfold Timestamp_ymd, Timestamp_of_day in *.
    assert (i = 0)%nat as -> by nia. simpl. lia. }
  assert (hi = Timestamp_of_day (days_from_civil 2024 1 1 + num_days - 1))
    as ->.
  { destruct (Hday hi Hhi_in) as (i & Hi & ->).
    specialize (Hhi_le _ (Hpresent (Z.to_nat num_days - 1)%nat
                            ltac:(lia))).
    unfold Timestamp_of_day in *.
    assert (Z.of_nat i = num_days - 1) as Hi' by nia.
    replace (days_from_civil 2024 1 1 + num_days - 1)
      with (days_from_civil 2024 1 1 + Z.of_nat i) by lia. done. }
  assert (all_regions data ⊆ region_names) as Hsub.
  { intros x Hx. apply elem_of_unique, list_elem_of_fmap in Hx
      as (r & -> & Hr).
    apply list_elem_of_lookup in Hr as [i Hi].
    by apply Hrows in Hi as (_ & _ & _ & ?). }
  unfold min_date, max_date, sidebar. rewrite Hlo, Hhi.
  split; [done|]. split; [done|]. split; [apply NoDup_unique|].
  split; [|split; [done|split]].
  - intros x. unfold all_regions.
    rewrite elem_of_unique, list_elem_of_fmap.
    split; intros (r & ? & ?); by exists r.
  - change 4%nat with (length region_names).
    apply submseteq_length, NoDup_submseteq; [apply NoDup_unique | done].
  - unfold min_date, max_date. rewrite Hlo, Hhi. by eexists.
Qed.

Lemma generated_sidebar_witness :
  ∃ data s',
    generate_sales_data (G:=lcg) 5 42 = Ok (data, s')
    ∧ 0 < 5
    ∧ min_date data = Some (to_pydatetime (Timestamp_ymd 2024 1 1))
    ∧ max_date data
      = Some (to_pydatetime
                (Timestamp_of_day (days_from_civil 2024 1 1 + 5 - 1)))
    ∧ NoDup (all_regions data)
    ∧ (∀ x, x ∈ all_regions data ↔ ∃ r, r ∈ data ∧ Region r = x)
    ∧ all_regions data ⊆ region_names
    ∧ (length (all_regions data) ≤ 4)%nat
    ∧ is_Some (sidebar data untouched).
Proof.
  eexists _, _. split; [reflexivity|]. split; [lia|].
  eapply (generated_sidebar (G:=lcg) 5 42 _ _ untouched);
    [reflexivity | lia].
Defined.

(** ** The labels of the metrics *)

Lemma group_rev_ind (P : list ascii → Prop) :
  P [] → (∀ a, P [a]) → (∀ a b, P [a; b]) → (∀ a b c, P [a; b; c]) →
  (∀ a b c d l, P (d :: l) → P (a :: b :: c :: d :: l)) →
  ∀ l, P l.
Proof.
  intros H0 H1 H2 H3 H4 l.
  assert (∀ n l, (length l ≤ n)%nat → P l) as Hall;
    [|by apply (Hall (length l))].
  clear l. intros n. induction n as [|n IH]; intros l Hl.
  { destruct l; [done | simpl in Hl; lia]. }
  destruct l as [|a [|b [|c [|d l]]]]; [done..|].
  apply H4, IH. simpl in *. lia.
Qed.

Lemma group_rev_step (a b c d : ascii) (l : list ascii) :
  group_rev (a :: b :: c :: d :: l)
  = a :: b :: c :: ","%char :: group_rev (d :: l).
Proof. done. Qed.

Lemma group_rev_filter (l : list ascii) :
  filter (λ c, c ≠ ","%char) (group_rev l) = filter (λ c, c ≠ ","%char) l.
Proof.
  induction l as [| | | |a b c d l IH] using group_rev_ind; [done..|].
  rewrite group_rev_step, !(filter_cons _ a), !(filter_cons _ b),
    !(filter_cons _ c), (filter_cons _ ","%char), IH.
  by rewrite (decide_False (P:=","%char ≠ ","%char)) by (by intros ?).
Qed.

Lemma group_rev_nonempty (l : list ascii) : l ≠ [] → group_rev l ≠ [].
Proof. by destruct l as [|a [|b [|c [|d l]]]]. Qed.

Local Ltac group_rev_place :=
  simpl; split;
  [ intros Hplace; try done; injection Hplace as ->; done
  | intros [Hmod Hlt]; first [done | simpl in *; lia] ].

(** The commas sit at every fourth place from the right, and the leftmost
    place is not one of them. *)
Lemma group_rev_commas (l : list ascii) :
  Forall (λ c, c ≠ ","%char) l →
  (∀ i : nat, group_rev l !! i = Some ","%char
              ↔ (i mod 4 = 3 ∧ i < length (group_rev l))%nat)
  ∧ (length (group_rev l) mod 4 ≠ 0 ∨ l = [])%nat.
Proof.
  induction l as [|a|a b|a b c|a b c d l IH] using group_rev_ind;
    intros Hl.
  - split; [|by right]. intros i. simpl. split; [done | lia].
  - apply Forall_cons in Hl as [Ha _]. split; [|left; simpl; lia].
    intros [|i]; group_rev_place.
  - apply Forall_cons in Hl as [Ha Hl]. apply Forall_cons in Hl as [Hb _].
    split; [|left; simpl; lia].
    intros [|[|i]]; group_rev_place.
  - apply Forall_cons in Hl as [Ha Hl]. apply Forall_cons in Hl as [Hb Hl].
    apply Forall_cons in Hl as [Hc _]. split; [|left; simpl; lia].
    intros [|[|[|i]]]; group_rev_place.
  - apply Forall_cons in Hl as [Ha Hl]. apply Forall_cons in Hl as [Hb Hl].
    apply Forall_cons in Hl as [Hc Hl].
    destruct (IH Hl) as [IHi IHlen]. rewrite group_rev_step.
    set (rest := group_rev (d :: l)) in *.
    assert (length (a :: b :: c :: ","%char :: rest) = 4 + length rest)%nat
      as Hlen by done.
    split.
    + intros [|[|[|[|i]]]]; rewrite Hlen.
      * group_rev_place.
      * group_rev_place.
      * group_rev_place.
      * simpl. split; [intros _; split; [done | lia] | done].
      * change ((a :: b :: c :: ","%char :: rest) !! S (S (S (S i))))
          with (rest !! i).
        rewrite IHi.
        replace (S (S (S (S i))) mod 4)%nat with (i mod 4)%nat.
        -- split; intros [? ?]; split; [done | lia | done | lia].
        -- change (S (S (S (S i)))) with (4 + i)%nat.
           rewrite <-(Nat.Div0.add_mod_idemp_l 4 i 4). done.
    + left. rewrite Hlen. destruct IHlen as [IHlen|?]; [|done].
      replace ((4 + length rest) mod 4)%nat with (length rest mod 4)%nat;
        [done|].
      rewrite <-(Nat.Div0.add_mod_idemp_l 4 (length rest) 4). done.
Qed.

Lemma uint_digits_no_comma (d : Decimal.uint) :
  Forall (λ c, c ≠ ","%char)
    (list_ascii_of_string (NilEmpty.string_of_uint d)).
Proof. induction d; simpl; constructor; done. Qed.

Lemma uint_string_no_comma (d : Decimal.uint) :
  Forall (λ c, c ≠ ","%char)
    (list_ascii_of_string (NilZero.string_of_uint d)).
Proof.
  destruct d; try apply uint_digits_no_comma.
  simpl. constructor; [done | constructor].
Qed.

Lemma remove_with_commas (digits : string) :
  Forall (λ c, c ≠ ","%char) (list_ascii_of_string digits) →
  remove_commas (with_commas digits) = digits.
Proof.
  intros Hdigits. unfold remove_commas, with_commas.
  rewrite list_ascii_of_string_of_list_ascii, filter_reverse.
  rewrite group_rev_filter, <-filter_reverse, reverse_involutive.
  rewrite filter_all by (by apply Forall_forall).
  apply string_of_list_ascii_of_string.
Qed.

Lemma remove_commas_minus (s : string) :
  remove_commas (String "-" s) = String "-" (remove_commas s).
Proof.
  unfold remove_commas. cbn [list_ascii_of_string].
  by rewrite filter_cons_True by done.
Qed.

Lemma Z_to_int_nonnil (n : Z) :
  Z.to_int n ≠ Decimal.Pos Decimal.Nil ∧ Z.to_int n ≠ Decimal.Neg Decimal.Nil.
Proof.
  destruct n as [|p|p]; simpl; split; try done.
  - intros [= Hp]. by apply (Unsigned.to_uint_nonnil p).
  - intros [= Hp]. by apply (Unsigned.to_uint_nonnil p).
Qed.

Lemma format_comma_parse (n : Z) :
  parse_int (remove_commas (format_comma n)) = Some n.
Proof.
  assert (remove_commas (format_comma n)
          = NilZero.string_of_int (Z.to_int n)) as ->.
  { unfold format_comma. destruct (Z.to_int n) as [d|d]; simpl.
    - apply remove_with_commas, uint_string_no_comma.
    - rewrite remove_commas_minus. f_equal.
      apply remove_with_commas, uint_string_no_comma. }
  unfold parse_int. destruct (Z_to_int_nonnil n) as [Hpos Hneg].
  rewrite NilZero.isi by done. simpl. f_equal. apply DecimalZ.of_to.
Qed.

(** X22: a number printed with thousands separators is its plain decimal
    writing once the commas are taken out, and reads back as itself. *)
Theorem format_comma_round_trip (n : Z) :
  remove_commas (format_comma n) = NilZero.string_of_int (Z.to_int n)
  ∧ parse_int (remove_commas (format_comma n)) = Some n.
Proof.
  split; [|apply format_comma_parse].
  unfold format_comma. destruct (Z.to_int n) as [d|d]; simpl.
  - apply remove_with_commas, uint_string_no_comma.
  - rewrite remove_commas_minus. f_equal.
    apply remove_with_commas, uint_string_no_comma.
Qed.

(** X23: in the label of the number of transactions the commas sit at
    every fourth place counted from the right, and nowhere else; the label
    does not start with one, and without its commas it reads back as the
    number of records of the view. *)
Theorem num_transactions_label_commas (view : DataFrame) :
  (∀ i : nat,
     reverse (list_ascii_of_string (num_transactions_label view)) !! i
       = Some ","%char
     ↔ (i mod 4 = 3
        ∧ i < length (list_ascii_of_string (num_transactions_label view)))%nat)
  ∧ head (list_ascii_of_string (num_transactions_label view))
    ≠ Some ","%char
  ∧ list_ascii_of_string (num_transactions_label view) ≠ []
  ∧ parse_int (remove_commas (num_transactions_label view))
    = Some (Z.of_nat (length view)).
Proof.
  unfold num_transactions_label, num_transactions.
  split; [|split; [|split]]; [..|apply format_comma_parse].
  all: unfold format_comma.
  all: assert (∃ d, Z.to_int (Z.of_nat (length view)) = Decimal.Pos d)
    as [d ->] by (destruct (length view); simpl; by eexists).
  all: unfold with_commas; rewrite list_ascii_of_string_of_list_ascii.
  all: set (digits := reverse (list_ascii_of_string
                                 (NilZero.string_of_uint d))).
  all: assert (Forall (λ c, c ≠ ","%char) digits) as Hdigits
    by (apply Forall_reverse, uint_string_no_comma).
  all: assert (digits ≠ []) as Hne
    by (unfold digits; intros Hnil; apply (f_equal length) in Hnil;
        rewrite length_reverse in Hnil; by destruct d).
  all: destruct (group_rev_commas digits Hdigits) as [Hcommas Hlen].
  - intros i. by rewrite reverse_involutive, length_reverse.
  - intros Hhead. rewrite head_reverse, last_lookup in Hhead.
    apply Hcommas in Hhead as [Hmod _].
    destruct Hlen as [Hlen|?]; [|done]. apply Hlen.
    pose proof (group_rev_nonempty digits Hne).
    destruct (group_rev digits) as [|c rest]; [done|].
    cbn [length Nat.pred] in *.
    replace (S (length rest)) with (1 + length rest)%nat by lia.
    rewrite <-Nat.Div0.add_mod_idemp_r, Hmod. done.
  - intros Hnil. apply (f_equal reverse) in Hnil.
    rewrite reverse_involutive in Hnil.
    by apply (group_rev_nonempty digits Hne).
Qed.

(** ** The frame grouped by region, row by row *)

(** X25: the frame grouped by region has exactly one row for every region
    that occurs in the view and no row for any other, and the row of a
    region carries the sum of the sales of the records of that region. *)
Theorem sales_by_region_rows (view : DataFrame) :
  (∀ x, x ∈ Region <$> view →
     length (filter (λ row, row.1 = x) (sales_by_region view)) = 1%nat)
  ∧ (∀ x, x ∉ Region <$> view →
       filter (λ row, row.1 = x) (sales_by_region view) = [])
  ∧ (∀ row, row ∈ sales_by_region view →
       row.2 = sales_in view row.1).
Proof.
  split; [|split].
  - intros x Hx.
    rewrite (length_filter_fmap_eq (λ row : string * Z, row.1)).
    apply length_filter_eq_NoDup.
    + unfold sales_by_region. rewrite groupby_sum_keys.
      apply NoDup_group_keys.
    + by apply sales_by_region_keys.
  - intros x Hx. apply filter_none. intros row Hrow Hrx. apply Hx.
    apply sales_by_region_keys. rewrite <-Hrx.
    by apply list_elem_of_fmap_2.
  - intros [x v] Hrow. apply elem_of_groupby_sum in Hrow as [_ ->].
    unfold sales_in. by rewrite series_sum_arithmetic.
Qed.

Lemma generated_within_int64_witness :
  ∃ data s',
    5 ≤ 87029
    ∧ generate_sales_data (G:=lcg) 5 42 = Ok (data, s')
    ∧ Forall (λ r, 0 ≤ Date r < 2 ^ 63 ∧ 0 ≤ Sales r < 2 ^ 63) data
    ∧ ∀ view, view `sublist_of` data →
        0 ≤ series_sum (Sales <$> view) < 2 ^ 63.
Proof.
  eexists _, _. split; [lia|]. split; [reflexivity|].
  eapply (generated_within_int64 (G:=lcg) 5 42); [lia | reflexivity].
Defined.
